(** * DMS endpoint resource: a shallow embedding of
      [aws/resource_aws_dms_endpoint.go] and its verified properties.

    The resource has four entry points (Create, Read, Update, Delete) that
    talk to the DMS control plane through the SDK client and mutate the
    [schema.ResourceData] handed to them.  The embedding keeps that shape:
    byte strings with the three [strings] functions the code calls, the SDK
    structures as records with [option] for pointer fields, and the entry
    points as computations in a state monad over the resource data, the
    remote system and the log of remote calls, with a third outcome for a
    Go run-time panic.  Two things lie outside the file and are taken as
    parameters: the control plane behind the client, and the case tables
    of package [unicode], which [strings.ToLower] consults on text that
    is not ASCII. *)

From Stdlib Require Import ZArith Ascii String.
From stdpp Require Import base option list strings gmap.

Open Scope string_scope.
Open Scope list_scope.
Open Scope Z_scope.

(** ** Byte strings and the [strings] package *)

Module Strings.

(** Bytes the code and its properties name.  Go's ["\\n"] is the two
    bytes backslash, [n]; the newline character is the single byte 10. *)
Definition semicolon : ascii := ";"%char.
Definition equals : ascii := "="%char.
Definition backslash : ascii := ascii_of_nat 92.
Definition newline : ascii := ascii_of_nat 10.

(** [strings.ToLower].  On a string of ASCII bytes (every byte below
    [utf8.RuneSelf], 128) the function lowers [A..Z] to [a..z] byte by
    byte and keeps every other byte.  On any other string it is
    [strings.Map(unicode.ToLower, s)], which decodes the runes and looks
    them up in the case tables of package [unicode] (so that U+0130,
    for one, becomes the ASCII letter [i]).

    Those tables are library data and not part of this repository: the
    Unicode path is a parameter of the model, [unicodeLower], and every
    general property below is proved for every such function. *)
Definition lower_byte (c : ascii) : ascii :=
  let n := N_of_ascii c in
  if ((65 <=? n) && (n <=? 90))%N then ascii_of_N (n + 32) else c.

Fixpoint lowerASCII (s : string) : string :=
  match s with
  | EmptyString => EmptyString
  | String c s' => String (lower_byte c) (lowerASCII s')
  end.

Fixpoint isASCII (s : string) : bool :=
  match s with
  | EmptyString => true
  | String c s' => (N_of_ascii c <? 128)%N && isASCII s'
  end.

Class CaseTables := unicodeLower : string → string.

Definition ToLower `{tables : CaseTables} (s : string) : string :=
  if isASCII s then lowerASCII s else unicodeLower s.

(** [strings.HasPrefix s p]. *)
Fixpoint HasPrefix (s p : string) : bool :=
  match p, s with
  | EmptyString, _ => true
  | String _ _, EmptyString => false
  | String a p', String b s' => bool_decide (a = b) && HasPrefix s' p'
  end.

(** [strings.Contains s substr]: [substr] starts at some offset of [s]. *)
Fixpoint Contains (s substr : string) : bool :=
  HasPrefix s substr ||
  match s with
  | EmptyString => false
  | String _ s' => Contains s' substr
  end.

(** [strings.Split s sep] for a one-byte separator, the only way the
    code calls it ([";"] and ["="]): every occurrence of the separator
    cuts, so the result has one more piece than there are separators and
    is never empty ([Split "" sep] is the one-element slice [[""]]). *)
Fixpoint Split (s : string) (sep : ascii) : list string :=
  match s with
  | EmptyString => [EmptyString]
  | String c s' =>
      if bool_decide (c = sep) then EmptyString :: Split s' sep
      else match Split s' sep with
           | [] => [String c EmptyString]
           | piece :: rest => String c piece :: rest
           end
  end.

(** A byte occurs in a string. *)
Fixpoint has_byte (c : ascii) (s : string) : bool :=
  match s with
  | EmptyString => false
  | String b s' => bool_decide (b = c) || has_byte c s'
  end.

(** [strings.Join pieces sep] for a one-byte separator; it is what
    writes a list of [key=value] segments as one attribute string. *)
Fixpoint Join (pieces : list string) (sep : ascii) : string :=
  match pieces with
  | [] => EmptyString
  | [p] => p
  | p :: rest => p +:+ String sep (Join rest sep)
  end.

(** The text before the first occurrence of a byte (all of the string
    when the byte does not occur), and the text after it. *)
Fixpoint before (c : ascii) (s : string) : string :=
  match s with
  | EmptyString => EmptyString
  | String b s' => if bool_decide (b = c) then EmptyString else String b (before c s')
  end.

Fixpoint after (c : ascii) (s : string) : option string :=
  match s with
  | EmptyString => None
  | String b s' => if bool_decide (b = c) then Some s' else after c s'
  end.

End Strings.
Import Strings.

(** ** The SDK structures ([dms.*])

    A pointer field ([*string], [*int64], [*dms.S3Settings]) is an
    [option]: [None] is Go's [nil], and reading through it panics. *)

Module S3Settings.
Record t := mk {
  ServiceAccessRoleArn : option string;
  BucketName : option string;
  BucketFolder : option string;
  CompressionType : option string;
  CsvDelimiter : option string;
  CsvRowDelimiter : option string
}.
Definition set_CompressionType (v : string) (s : t) : t :=
  mk (ServiceAccessRoleArn s) (BucketName s) (BucketFolder s)
     (Some v) (CsvDelimiter s) (CsvRowDelimiter s).
Definition set_CsvDelimiter (v : string) (s : t) : t :=
  mk (ServiceAccessRoleArn s) (BucketName s) (BucketFolder s)
     (CompressionType s) (Some v) (CsvRowDelimiter s).
Definition set_CsvRowDelimiter (v : string) (s : t) : t :=
  mk (ServiceAccessRoleArn s) (BucketName s) (BucketFolder s)
     (CompressionType s) (CsvDelimiter s) (Some v).
End S3Settings.

Module DynamoDbSettings.
Record t := mk { ServiceAccessRoleArn : option string }.
End DynamoDbSettings.

Module CreateEndpointInput.
Record t := mk {
  EndpointIdentifier : option string;
  EndpointType : option string;
  EngineName : option string;
  Tags : gmap string string;
  DynamoDbSettings : option DynamoDbSettings.t;
  S3Settings : option S3Settings.t;
  Password : option string;
  Port : option Z;
  ServerName : option string;
  Username : option string;
  DatabaseName : option string;
  ExtraConnectionAttributes : option string;
  KmsKeyId : option string;
  SslMode : option string;
  CertificateArn : option string
}.
Definition set_DynamoDbSettings v r :=
  mk (EndpointIdentifier r) (EndpointType r) (EngineName r) (Tags r)
     (Some v) (S3Settings r) (Password r) (Port r) (ServerName r)
     (Username r) (DatabaseName r) (ExtraConnectionAttributes r)
     (KmsKeyId r) (SslMode r) (CertificateArn r).
Definition set_S3Settings v r :=
  mk (EndpointIdentifier r) (EndpointType r) (EngineName r) (Tags r)
     (DynamoDbSettings r) (Some v) (Password r) (Port r) (ServerName r)
     (Username r) (DatabaseName r) (ExtraConnectionAttributes r)
     (KmsKeyId r) (SslMode r) (CertificateArn r).
Definition set_connection password port server user r :=
  mk (EndpointIdentifier r) (EndpointType r) (EngineName r) (Tags r)
     (DynamoDbSettings r) (S3Settings r) (Some password) (Some port)
     (Some server) (Some user) (DatabaseName r)
     (ExtraConnectionAttributes r) (KmsKeyId r) (SslMode r)
     (CertificateArn r).
Definition set_DatabaseName v r :=
  mk (EndpointIdentifier r) (EndpointType r) (EngineName r) (Tags r)
     (DynamoDbSettings r) (S3Settings r) (Password r) (Port r)
     (ServerName r) (Username r) (Some v) (ExtraConnectionAttributes r)
     (KmsKeyId r) (SslMode r) (CertificateArn r).
Definition set_ExtraConnectionAttributes v r :=
  mk (EndpointIdentifier r) (EndpointType r) (EngineName r) (Tags r)
     (DynamoDbSettings r) (S3Settings r) (Password r) (Port r)
     (ServerName r) (Username r) (DatabaseName r) (Some v)
     (KmsKeyId r) (SslMode r) (CertificateArn r).
Definition set_KmsKeyId v r :=
  mk (EndpointIdentifier r) (EndpointType r) (EngineName r) (Tags r)
     (DynamoDbSettings r) (S3Settings r) (Password r) (Port r)
     (ServerName r) (Username r) (DatabaseName r)
     (ExtraConnectionAttributes r) (Some v) (SslMode r) (CertificateArn r).
Definition set_SslMode v r :=
  mk (EndpointIdentifier r) (EndpointType r) (EngineName r) (Tags r)
     (DynamoDbSettings r) (S3Settings r) (Password r) (Port r)
     (ServerName r) (Username r) (DatabaseName r)
     (ExtraConnectionAttributes r) (KmsKeyId r) (Some v) (CertificateArn r).
Definition set_CertificateArn v r :=
  mk (EndpointIdentifier r) (EndpointType r) (EngineName r) (Tags r)
     (DynamoDbSettings r) (S3Settings r) (Password r) (Port r)
     (ServerName r) (Username r) (DatabaseName r)
     (ExtraConnectionAttributes r) (KmsKeyId r) (SslMode r) (Some v).
End CreateEndpointInput.

Module ModifyEndpointInput.
Record t := mk {
  EndpointArn : option string;
  EndpointType : option string;
  CertificateArn : option string;
  DatabaseName : option string;
  EngineName : option string;
  DynamoDbSettings : option DynamoDbSettings.t;
  S3Settings : option S3Settings.t;
  ExtraConnectionAttributes : option string;
  Password : option string;
  Port : option Z;
  ServerName : option string;
  SslMode : option string;
  Username : option string
}.
Definition set_EndpointType v r :=
  mk (EndpointArn r) (Some v) (CertificateArn r) (DatabaseName r)
     (EngineName r) (DynamoDbSettings r) (S3Settings r)
     (ExtraConnectionAttributes r) (Password r) (Port r) (ServerName r)
     (SslMode r) (Username r).
Definition set_CertificateArn v r :=
  mk (EndpointArn r) (EndpointType r) (Some v) (DatabaseName r)
     (EngineName r) (DynamoDbSettings r) (S3Settings r)
     (ExtraConnectionAttributes r) (Password r) (Port r) (ServerName r)
     (SslMode r) (Username r).
Definition set_DatabaseName v r :=
  mk (EndpointArn r) (EndpointType r) (CertificateArn r) (Some v)
     (EngineName r) (DynamoDbSettings r) (S3Settings r)
     (ExtraConnectionAttributes r) (Password r) (Port r) (ServerName r)
     (SslMode r) (Username r).
Definition set_EngineName v r :=
  mk (EndpointArn r) (EndpointType r) (CertificateArn r) (DatabaseName r)
     (Some v) (DynamoDbSettings r) (S3Settings r)
     (ExtraConnectionAttributes r) (Password r) (Port r) (ServerName r)
     (SslMode r) (Username r).
Definition set_DynamoDbSettings v r :=
  mk (EndpointArn r) (EndpointType r) (CertificateArn r) (DatabaseName r)
     (EngineName r) (Some v) (S3Settings r)
     (ExtraConnectionAttributes r) (Password r) (Port r) (ServerName r)
     (SslMode r) (Username r).
Definition set_S3Settings v r :=
  mk (EndpointArn r) (EndpointType r) (CertificateArn r) (DatabaseName r)
     (EngineName r) (DynamoDbSettings r) (Some v)
     (ExtraConnectionAttributes r) (Password r) (Port r) (ServerName r)
     (SslMode r) (Username r).
Definition set_ExtraConnectionAttributes v r :=
  mk (EndpointArn r) (EndpointType r) (CertificateArn r) (DatabaseName r)
     (EngineName r) (DynamoDbSettings r) (S3Settings r)
     (Some v) (Password r) (Port r) (ServerName r)
     (SslMode r) (Username r).
Definition set_Password v r :=
  mk (EndpointArn r) (EndpointType r) (CertificateArn r) (DatabaseName r)
     (EngineName r) (DynamoDbSettings r) (S3Settings r)
     (ExtraConnectionAttributes r) (Some v) (Port r) (ServerName r)
     (SslMode r) (Username r).
Definition set_Port v r :=
  mk (EndpointArn r) (EndpointType r) (CertificateArn r) (DatabaseName r)
     (EngineName r) (DynamoDbSettings r) (S3Settings r)
     (ExtraConnectionAttributes r) (Password r) (Some v) (ServerName r)
     (SslMode r) (Username r).
Definition set_ServerName v r :=
  mk (EndpointArn r) (EndpointType r) (CertificateArn r) (DatabaseName r)
     (EngineName r) (DynamoDbSettings r) (S3Settings r)
     (ExtraConnectionAttributes r) (Password r) (Port r) (Some v)
     (SslMode r) (Username r).
Definition set_SslMode v r :=
  mk (EndpointArn r) (EndpointType r) (CertificateArn r) (DatabaseName r)
     (EngineName r) (DynamoDbSettings r) (S3Settings r)
     (ExtraConnectionAttributes r) (Password r) (Port r) (ServerName r)
     (Some v) (Username r).
Definition set_Username v r :=
  mk (EndpointArn r) (EndpointType r) (CertificateArn r) (DatabaseName r)
     (EngineName r) (DynamoDbSettings r) (S3Settings r)
     (ExtraConnectionAttributes r) (Password r) (Port r) (ServerName r)
     (SslMode r) (Some v).
End ModifyEndpointInput.

Module Endpoint.
Record t := mk {
  EndpointIdentifier : option string;
  EndpointType : option string;
  EngineName : option string;
  EndpointArn : option string;
  CertificateArn : option string;
  DatabaseName : option string;
  ExtraConnectionAttributes : option string;
  Port : option Z;
  ServerName : option string;
  Username : option string;
  KmsKeyId : option string;
  SslMode : option string;
  DynamoDbSettings : option DynamoDbSettings.t;
  S3Settings : option S3Settings.t
}.
End Endpoint.

(** Errors.  [awserr.Error] is the SDK's error interface: an error that
    satisfies it carries a code; any other Go error does not.
    [TimeoutError] is what [resource.Retry] reports when its ceiling
    passes before any attempt has answered. *)
Inductive error :=
| AwsError (code message : string)
| PlainError (message : string)
| TimeoutError.

#[global] Instance error_eq_dec : EqDecision error.
Proof. solve_decision. Defined.

(** ** The extra-attribute codec

    The s3 branch of Create (lines 164-178) and of Update (lines 308-320)
    run the same loop over the [;]-separated segments of
    [extra_connection_attributes]; SetState (lines 419-421) writes the
    three fields back with one [Sprintf]. *)

Module Codec.

Section Loop.
Context `{tables : CaseTables}.

(** One turn of the loop body: [vals := strings.Split(elem, "=")], then
    the [if / else if] chain on [strings.ToLower(vals[0])].  An index
    out of range is Go's panic, here [None]. *)
Definition parseElem (s : S3Settings.t) (elem : string) : option S3Settings.t :=
  let vals := Split elem equals in
  key ← vals !! 0%nat;
  if Contains (ToLower key) "compressiontype" then
    v ← vals !! 1%nat; Some (S3Settings.set_CompressionType v s)
  else if Contains (ToLower key) "csvdelimiter" then
    v ← vals !! 1%nat; Some (S3Settings.set_CsvDelimiter v s)
  else if Contains (ToLower key) "csvrowdelimiter" then
    v ← vals !! 1%nat; Some (S3Settings.set_CsvRowDelimiter v s)
  else Some s.

(** [for _, elem := range elems { ... }] *)
Fixpoint parseElems (s : S3Settings.t) (elems : list string) : option S3Settings.t :=
  match elems with
  | [] => Some s
  | elem :: rest => s' ← parseElem s elem; parseElems s' rest
  end.

(** [elems := strings.Split(v, ";"); if len(elems) > 0 { for ... }] *)
Definition parseExtraAttributes (s : S3Settings.t) (v : string) : option S3Settings.t :=
  let elems := Split v semicolon in
  if bool_decide (0 < length elems)%nat then parseElems s elems else Some s.

End Loop.

(** [fmt.Sprintf("compressionType=%s;csvDelimiter=%s;csvRowDelimiter=%s",
    *CompressionType, *CsvDelimiter, *CsvRowDelimiter)]; each of the
    three dereferences panics on [nil]. *)
Definition serialize (s : S3Settings.t) : option string :=
  c ← S3Settings.CompressionType s;
  d ← S3Settings.CsvDelimiter s;
  r ← S3Settings.CsvRowDelimiter s;
  Some ("compressionType=" +:+ c +:+ ";csvDelimiter=" +:+ d
        +:+ ";csvRowDelimiter=" +:+ r).

(** The defaults Create writes before it parses (lines 157-160). *)
Definition default_CompressionType : string := "GZIP".
Definition default_CsvDelimiter : string := ",".
Definition default_CsvRowDelimiter : string := String backslash "n".

End Codec.
Import Codec.

(** ** [schema.ResourceData]

    The attributes are keyed by name, as in the framework; their types
    come from the schema of lines 28-131.  [state] is what was stored
    before the operation, [view] what the operation reads with [d.Get]
    (the desired configuration, and whatever [d.Set] wrote since). *)

Inductive ValueType := TypeString | TypeInt | TypeMap.

Inductive Value :=
| VString (s : string)
| VInt (n : Z)
| VMap (m : gmap string string).

#[global] Instance Value_eq_dec : EqDecision Value.
Proof. solve_decision. Defined.

Definition Schema : list (string * ValueType) :=
  [ ("certificate_arn", TypeString); ("database_name", TypeString);
    ("endpoint_arn", TypeString); ("endpoint_id", TypeString);
    ("service_access_role", TypeString); ("endpoint_type", TypeString);
    ("engine_name", TypeString); ("extra_connection_attributes", TypeString);
    ("kms_key_arn", TypeString); ("password", TypeString);
    ("port", TypeInt); ("server_name", TypeString); ("ssl_mode", TypeString);
    ("tags", TypeMap); ("username", TypeString); ("bucket_name", TypeString);
    ("bucket_folder", TypeString) ].

Definition zeroValue (t : ValueType) : Value :=
  match t with
  | TypeString => VString ""
  | TypeInt => VInt 0
  | TypeMap => VMap ∅
  end.

Fixpoint lookupType (key : string) (schema : list (string * ValueType)) : ValueType :=
  match schema with
  | [] => TypeString
  | (k, t) :: rest => if bool_decide (k = key) then t else lookupType key rest
  end.

Definition typeOf (key : string) : ValueType := lookupType key Schema.

Record ResourceData := mkResourceData {
  Id : string;
  state : gmap string Value;
  view : gmap string Value
}.

(** An attribute that is not set reads as the zero value of its type. *)
Definition read (m : gmap string Value) (key : string) : Value :=
  default (zeroValue (typeOf key)) (m !! key).

Definition Get (d : ResourceData) (key : string) : Value := read (view d) key.

(** [d.Get(key).(string)], [d.Get(key).(int)] and
    [d.Get(key).(map[string]interface{})]; the schema fixes the type of
    every attribute, so the assertion never fails on a stored value. *)
Definition GetString (d : ResourceData) (key : string) : string :=
  match Get d key with VString s => s | _ => "" end.
Definition GetInt (d : ResourceData) (key : string) : Z :=
  match Get d key with VInt n => n | _ => 0 end.
Definition GetMap (d : ResourceData) (key : string) : gmap string string :=
  match Get d key with VMap m => m | _ => ∅ end.

(** [d.GetOk(key)]: the value, and whether it differs from the zero value. *)
Definition GetOk (d : ResourceData) (key : string) : string * bool :=
  (GetString d key, bool_decide (Get d key ≠ zeroValue (typeOf key))).

(** [d.HasChange(key)]: the stored and the current value differ. *)
Definition HasChange (d : ResourceData) (key : string) : bool :=
  bool_decide (read (state d) key ≠ Get d key).

Definition Set_ (key : string) (v : Value) (d : ResourceData) : ResourceData :=
  mkResourceData (Id d) (state d) (<[key := v]> (view d)).

Definition SetId (id : string) (d : ResourceData) : ResourceData :=
  mkResourceData id (state d) (view d).

(** [d.Set(key, p)] with a pointer: a [nil] pointer stores the zero value. *)
Definition ptrString (p : option string) : Value := VString (default "" p).
Definition ptrInt (p : option Z) : Value := VInt (default 0 p).

(** ** The remote control plane

    Every remote operation is a function of the request and the remote
    system's state [R]; the properties below hold for every such client.
    [SetTags] stands for the helper [dmsSetTags(arn, d, meta)], which
    lives in another file of the provider: all that matters here is when
    it is called.  The tag list of the SDK is kept as the map it encodes
    ([dmsTagsFromMap], [dmsTagsToMap]).  [attempts_within timeout] is the
    number of attempts the backoff of [resource.Retry] starts before
    [timeout] has passed. *)

Record Client (R : Type) := mkClient {
  CreateEndpoint : CreateEndpointInput.t → R → option error * R;
  DescribeEndpoints : string → R → (error + list Endpoint.t) * R;
  ListTagsForResource : string → R → (error + gmap string string) * R;
  ModifyEndpoint : ModifyEndpointInput.t → R → option error * R;
  DeleteEndpoint : string → R → option error * R;
  SetTags : string → ResourceData → R → option error * R;
  attempts_within : Z → nat
}.
Arguments CreateEndpoint {R}.
Arguments DescribeEndpoints {R}.
Arguments ListTagsForResource {R}.
Arguments ModifyEndpoint {R}.
Arguments DeleteEndpoint {R}.
Arguments SetTags {R}.
Arguments attempts_within {R}.

(** The remote calls an operation issues, in order. *)
Inductive Call :=
| CallCreateEndpoint (request : CreateEndpointInput.t)
| CallDescribeEndpoints (endpoint_id : string)
| CallListTagsForResource (arn : string)
| CallModifyEndpoint (request : ModifyEndpointInput.t)
| CallDeleteEndpoint (arn : string)
| CallSetTags (arn : string).

Record World (R : Type) := mkWorld {
  data : ResourceData;
  remote : R;
  calls : list Call
}.
Arguments mkWorld {R}.
Arguments data {R}.
Arguments remote {R}.
Arguments calls {R}.

(** What running an operation gives: a Go panic, or a value and the world
    it leaves. *)
Inductive Outcome (R A : Type) :=
| Panic
| Return (a : A) (w : World R).
Arguments Panic {R A}.
Arguments Return {R A}.

Definition M (R A : Type) : Type := World R → Outcome R A.

#[global] Instance M_ret {R} : MRet (M R) := λ A a w, Return a w.
#[global] Instance M_bind {R} : MBind (M R) := λ A B f m w,
  match m w with
  | Panic => Panic
  | Return a w' => f a w'
  end.

(** Durations are nanoseconds, as in [time]. *)
Definition Minute : Z := 60 * 1000000000.

(** [resource.RetryError], built by [resource.RetryableError] and
    [resource.NonRetryableError]. *)
Record RetryError := mkRetryError { Err : error; Retryable : bool }.
Definition RetryableError (e : error) := mkRetryError e true.
Definition NonRetryableError (e : error) := mkRetryError e false.

(** ** The four operations *)

Section Resource.
Context {R : Type} `{tables : CaseTables} (conn : Client R).

Definition panic {A} : M R A := λ _, Panic.
Definition getData : M R ResourceData := λ w, Return (data w) w.
Definition modifyData (f : ResourceData → ResourceData) : M R unit :=
  λ w, Return () (mkWorld (f (data w)) (remote w) (calls w)).

(** A remote call: the client answers from the remote state, and the
    call is logged. *)
Definition invoke {A} (c : Call) (op : R → A * R) : M R A :=
  λ w, let '(a, r) := op (remote w) in
       Return a (mkWorld (data w) r (calls w ++ [c])).

(** [*p] and [l[i]]. *)
Definition deref {A} (p : option A) : M R A :=
  match p with Some a => mret a | None => panic end.
Definition index {A} (l : list A) (i : nat) : M R A := deref (l !! i).

(** [resource.Retry(timeout, f)]: [f] runs until it answers [nil] or a
    non-retryable error, or until the ceiling has passed; then the last
    error seen is the result ([TimeoutError] if there was none). *)
Fixpoint retryLoop (attempts : nat) (f : M R (option RetryError))
    (last : option error) : M R (option error) :=
  match attempts with
  | O => mret (Some (default TimeoutError last))
  | S n =>
      r ← f;
      match r with
      | None => mret None
      | Some rerr =>
          if Retryable rerr then retryLoop n f (Some (Err rerr))
          else mret (Some (Err rerr))
      end
  end.

Definition Retry (timeout : Z) (f : M R (option RetryError)) : M R (option error) :=
  retryLoop (attempts_within conn timeout) f None.

(** *** [resourceAwsDmsEndpointSetState] (lines 397-439) *)
Definition resourceAwsDmsEndpointSetState (endpoint : Endpoint.t) : M R (option error) :=
  id ← deref (Endpoint.EndpointIdentifier endpoint);
  modifyData (SetId id);;
  modifyData (Set_ "certificate_arn" (ptrString (Endpoint.CertificateArn endpoint)));;
  modifyData (Set_ "endpoint_arn" (ptrString (Endpoint.EndpointArn endpoint)));;
  modifyData (Set_ "endpoint_id" (ptrString (Endpoint.EndpointIdentifier endpoint)));;
  endpointType ← deref (Endpoint.EndpointType endpoint);
  modifyData (Set_ "endpoint_type" (VString (ToLower endpointType)));;
  modifyData (Set_ "engine_name" (ptrString (Endpoint.EngineName endpoint)));;
  engineName ← deref (Endpoint.EngineName endpoint);
  (if bool_decide (engineName = "dynamodb") then
     match Endpoint.DynamoDbSettings endpoint with
     | Some settings =>
         modifyData (Set_ "service_access_role"
           (ptrString (DynamoDbSettings.ServiceAccessRoleArn settings)))
     | None => modifyData (Set_ "service_access_role" (VString ""))
     end
   else if bool_decide (engineName = "s3") then
     match Endpoint.S3Settings endpoint with
     | Some settings =>
         modifyData (Set_ "service_access_role"
           (ptrString (S3Settings.ServiceAccessRoleArn settings)));;
         modifyData (Set_ "bucket_folder" (ptrString (S3Settings.BucketFolder settings)));;
         modifyData (Set_ "bucket_name" (ptrString (S3Settings.BucketName settings)));;
         extra ← deref (serialize settings);
         modifyData (Set_ "extra_connection_attributes" (VString extra))
     | None =>
         modifyData (Set_ "service_access_role" (VString ""));;
         modifyData (Set_ "bucket_folder" (VString ""));;
         modifyData (Set_ "bucket_name" (VString ""));;
         modifyData (Set_ "extra_connection_attributes" (VString ""))
     end
   else
     modifyData (Set_ "database_name" (ptrString (Endpoint.DatabaseName endpoint)));;
     modifyData (Set_ "extra_connection_attributes"
       (ptrString (Endpoint.ExtraConnectionAttributes endpoint)));;
     modifyData (Set_ "port" (ptrInt (Endpoint.Port endpoint)));;
     modifyData (Set_ "server_name" (ptrString (Endpoint.ServerName endpoint)));;
     modifyData (Set_ "username" (ptrString (Endpoint.Username endpoint)));;
     modifyData (Set_ "kms_key_arn" (ptrString (Endpoint.KmsKeyId endpoint)));;
     modifyData (Set_ "ssl_mode" (ptrString (Endpoint.SslMode endpoint))));;
  mret None.

(** *** [resourceAwsDmsEndpointRead] (lines 228-262) *)

(** [dmserr, ok := err.(awserr.Error); ok && dmserr.Code() == code] *)
Definition hasCode (err : error) (code : string) : bool :=
  match err with
  | AwsError c _ => bool_decide (c = code)
  | _ => false
  end.

Definition resourceAwsDmsEndpointRead : M R (option error) :=
  d ← getData;
  response ← invoke (CallDescribeEndpoints (Id d)) (DescribeEndpoints conn (Id d));
  match response with
  | inl err =>
      if hasCode err "ResourceNotFoundFault" then
        modifyData (SetId "");; mret None
      else mret (Some err)
  | inr endpoints =>
      endpoint ← index endpoints 0;
      err ← resourceAwsDmsEndpointSetState endpoint;
      match err with
      | Some e => mret (Some e)
      | None =>
          d ← getData;
          let arn := GetString d "endpoint_arn" in
          tagsResp ← invoke (CallListTagsForResource arn) (ListTagsForResource conn arn);
          match tagsResp with
          | inl e => mret (Some e)
          | inr tagList => modifyData (Set_ "tags" (VMap tagList));; mret None
          end
      end
  end.

(** *** [resourceAwsDmsEndpointCreate] (lines 135-226) *)

(** The request Create builds before it calls out (lines 138-202);
    [None] when the attribute loop panics. *)
Definition createRequest (d : ResourceData) : option CreateEndpointInput.t :=
  let request :=
    CreateEndpointInput.mk
      (Some (GetString d "endpoint_id")) (Some (GetString d "endpoint_type"))
      (Some (GetString d "engine_name")) (GetMap d "tags")
      None None None None None None None None None None None in
  let engine := GetString d "engine_name" in
  request ←
    (if bool_decide (engine = "dynamodb") then
       Some (CreateEndpointInput.set_DynamoDbSettings
               (DynamoDbSettings.mk (Some (GetString d "service_access_role")))
               request)
     else if bool_decide (engine = "s3") then
       let settings :=
         S3Settings.mk
           (Some (GetString d "service_access_role"))
           (Some (GetString d "bucket_name"))
           (Some (GetString d "bucket_folder"))
           (Some "GZIP") (Some ",") (Some (String backslash "n")) in
       settings ←
         (let '(v, ok) := GetOk d "extra_connection_attributes" in
          if ok then parseExtraAttributes settings v else Some settings);
       Some (CreateEndpointInput.set_S3Settings settings request)
     else
       let request :=
         CreateEndpointInput.set_connection
           (GetString d "password") (GetInt d "port")
           (GetString d "server_name") (GetString d "username") request in
       let request :=
         let '(v, ok) := GetOk d "database_name" in
         if ok then CreateEndpointInput.set_DatabaseName v request else request in
       let request :=
         let '(v, ok) := GetOk d "extra_connection_attributes" in
         if ok then CreateEndpointInput.set_ExtraConnectionAttributes v request
         else request in
       let request :=
         let '(v, ok) := GetOk d "kms_key_arn" in
         if ok then CreateEndpointInput.set_KmsKeyId v request else request in
       let request :=
         let '(v, ok) := GetOk d "ssl_mode" in
         if ok then CreateEndpointInput.set_SslMode v request else request in
       Some request);
  let '(v, ok) := GetOk d "certificate_arn" in
  Some (if ok then CreateEndpointInput.set_CertificateArn v request else request).

(** The function handed to [resource.Retry] (lines 206-219). *)
Definition createAttempt (request : CreateEndpointInput.t) : M R (option RetryError) :=
  err ← invoke (CallCreateEndpoint request) (CreateEndpoint conn request);
  match err with
  | Some e =>
      if hasCode e "AccessDeniedFault" then mret (Some (RetryableError e))
      else mret (Some (NonRetryableError e))
  | None => mret None
  end.

Definition resourceAwsDmsEndpointCreate : M R (option error) :=
  d ← getData;
  request ← deref (createRequest d);
  err ← Retry (5 * Minute) (createAttempt request);
  match err with
  | Some e => mret (Some e)
  | None =>
      d ← getData;
      modifyData (SetId (GetString d "endpoint_id"));;
      resourceAwsDmsEndpointRead
  end.

(** *** [resourceAwsDmsEndpointUpdate] (lines 264-378) *)

(** [if d.HasChange(key) { request.F = ...; hasChanges = true }] *)
Definition ifChanged (d : ResourceData) (key : string)
    (assign : ModifyEndpointInput.t → ModifyEndpointInput.t)
    (st : ModifyEndpointInput.t * bool) : ModifyEndpointInput.t * bool :=
  if HasChange d key then (assign st.1, true) else st.

(** The block at the label [DONE] (lines 365-377). *)
Definition updateDone (st : ModifyEndpointInput.t * bool) : M R (option error) :=
  let '(request, hasChanges) := st in
  if hasChanges then
    err ← invoke (CallModifyEndpoint request) (ModifyEndpoint conn request);
    match err with
    | Some e => mret (Some e)
    | None => resourceAwsDmsEndpointRead
    end
  else mret None.

(** Lines 333-363, which every path but the [goto] runs, then [DONE]. *)
Definition updateRest (d : ResourceData) (st : ModifyEndpointInput.t * bool)
    : M R (option error) :=
  let st := ifChanged d "password"
              (ModifyEndpointInput.set_Password (GetString d "password")) st in
  let st := ifChanged d "port"
              (ModifyEndpointInput.set_Port (GetInt d "port")) st in
  let st := ifChanged d "server_name"
              (ModifyEndpointInput.set_ServerName (GetString d "server_name")) st in
  let st := ifChanged d "ssl_mode"
              (ModifyEndpointInput.set_SslMode (GetString d "ssl_mode")) st in
  let st := ifChanged d "username"
              (ModifyEndpointInput.set_Username (GetString d "username")) st in
  if HasChange d "tags" then
    let arn := GetString d "endpoint_arn" in
    err ← invoke (CallSetTags arn) (SetTags conn arn d);
    match err with
    | Some e => mret (Some e)
    | None => updateDone st
    end
  else updateDone st.

(** The condition of line 301. *)
Definition s3SettingsChanged (d : ResourceData) : bool :=
  HasChange d "service_access_role" || HasChange d "bucket_name"
  || HasChange d "bucket_folder" || HasChange d "extra_connection_attributes".

(** The settings object the s3 branch builds (lines 302-320). *)
Definition modifyS3Settings (d : ResourceData) : option S3Settings.t :=
  parseExtraAttributes
    (S3Settings.mk (Some (GetString d "service_access_role"))
                   (Some (GetString d "bucket_name"))
                   (Some (GetString d "bucket_folder")) None None None)
    (GetString d "extra_connection_attributes").

Definition resourceAwsDmsEndpointUpdate : M R (option error) :=
  d ← getData;
  let request :=
    ModifyEndpointInput.mk (Some (GetString d "endpoint_arn"))
      None None None None None None None None None None None None in
  let st := (request, false) in
  let st := ifChanged d "endpoint_type"
              (ModifyEndpointInput.set_EndpointType (GetString d "endpoint_type")) st in
  let st := ifChanged d "certificate_arn"
              (ModifyEndpointInput.set_CertificateArn (GetString d "certificate_arn")) st in
  let st := ifChanged d "database_name"
              (ModifyEndpointInput.set_DatabaseName (GetString d "database_name")) st in
  let st := ifChanged d "engine_name"
              (ModifyEndpointInput.set_EngineName (GetString d "engine_name")) st in
  let engine := GetString d "engine_name" in
  if bool_decide (engine = "dynamodb") then
    updateRest d
      (ifChanged d "service_access_role"
         (ModifyEndpointInput.set_DynamoDbSettings
            (DynamoDbSettings.mk (Some (GetString d "service_access_role")))) st)
  else if bool_decide (engine = "s3") then
    if s3SettingsChanged d then
      settings ← deref (modifyS3Settings d);
      (* goto DONE *)
      updateDone (ModifyEndpointInput.set_S3Settings settings st.1, true)
    else updateRest d st
  else
    updateRest d
      (ifChanged d "extra_connection_attributes"
         (ModifyEndpointInput.set_ExtraConnectionAttributes
            (GetString d "extra_connection_attributes")) st).

(** *** [resourceAwsDmsEndpointDelete] (lines 380-395) *)
Definition resourceAwsDmsEndpointDelete : M R (option error) :=
  d ← getData;
  let arn := GetString d "endpoint_arn" in
  err ← invoke (CallDeleteEndpoint arn) (DeleteEndpoint conn arn);
  match err with
  | Some e => mret (Some e)
  | None => mret None
  end.

End Resource.

(** ** The vocabulary of the properties *)

(** *** The micro-format, in the words of its description *)

Module Micro.

(** The three attributes the codec knows. *)
Inductive Field := compressionType | csvDelimiter | csvRowDelimiter.

#[global] Instance Field_eq_dec : EqDecision Field.
Proof. solve_decision. Defined.

Definition token (f : Field) : string :=
  match f with
  | compressionType => "compressiontype"
  | csvDelimiter => "csvdelimiter"
  | csvRowDelimiter => "csvrowdelimiter"
  end.

Definition defaultOf (f : Field) : string :=
  match f with
  | compressionType => default_CompressionType
  | csvDelimiter => default_CsvDelimiter
  | csvRowDelimiter => default_CsvRowDelimiter
  end.

Definition getField (f : Field) (s : S3Settings.t) : option string :=
  match f with
  | compressionType => S3Settings.CompressionType s
  | csvDelimiter => S3Settings.CsvDelimiter s
  | csvRowDelimiter => S3Settings.CsvRowDelimiter s
  end.

Definition setField (f : Field) (v : string) (s : S3Settings.t) : S3Settings.t :=
  match f with
  | compressionType => S3Settings.set_CompressionType v s
  | csvDelimiter => S3Settings.set_CsvDelimiter v s
  | csvRowDelimiter => S3Settings.set_CsvRowDelimiter v s
  end.

Section Binding.
Context `{tables : CaseTables}.

(** A key, whatever its case, mentions the token of a field. *)
Definition mentions (key : string) (f : Field) : bool :=
  Contains (ToLower key) (token f).

(** The key of a segment is its text before the first [=]. *)
Definition keyOf (elem : string) : string := before equals elem.

(** The field a segment binds: the first of the three, in the order
    compressionType, csvDelimiter, csvRowDelimiter, that its key
    mentions. *)
Definition boundField (elem : string) : option Field :=
  if mentions (keyOf elem) compressionType then Some compressionType
  else if mentions (keyOf elem) csvDelimiter then Some csvDelimiter
  else if mentions (keyOf elem) csvRowDelimiter then Some csvRowDelimiter
  else None.

(** The value of a segment is the text between its first [=] and its
    second one (up to the end of the segment when there is no second). *)
Definition valueOf (elem : string) : string :=
  before equals (default "" (after equals elem)).

Definition bindSegment (s : S3Settings.t) (elem : string) : S3Settings.t :=
  match boundField elem with
  | Some f => setField f (valueOf elem) s
  | None => s
  end.

End Binding.

(** The string Read writes for three values. *)
Definition canonical (value : Field → string) : string :=
  "compressionType=" +:+ value compressionType
  +:+ ";csvDelimiter=" +:+ value csvDelimiter
  +:+ ";csvRowDelimiter=" +:+ value csvRowDelimiter.

(** An attribute string that gives the fields of [order], in that
    order, each under the key [spelling f] with the value [value f]. *)
Definition segment (spelling value : Field → string) (f : Field) : string :=
  spelling f +:+ String equals (value f).

Definition render (spelling value : Field → string) (order : list Field) : string :=
  Join (segment spelling value <$> order) semicolon.

(** The value a field ends with: the one given, or the default. *)
Definition supplied (order : list Field) (value : Field → string) (f : Field) : string :=
  if bool_decide (f ∈ order) then value f else defaultOf f.

End Micro.
Import Micro.

(** *** The parse as the description of the codec words it

    "Splits on [;], then on the first [=] within each segment", the value
    being everything after that [=]; a segment binds each field whose
    token its key contains, case-insensitively.  This is the reading the
    source is compared with, not the source. *)

Module Described.

Definition valueOf (elem : string) : string := default "" (after equals elem).

Section Binding.
Context `{tables : CaseTables}.

Definition bindIf (f : Field) (elem : string) (s : S3Settings.t) : S3Settings.t :=
  if mentions (keyOf elem) f then setField f (valueOf elem) s else s.

Definition bindSegment (s : S3Settings.t) (elem : string) : S3Settings.t :=
  bindIf csvRowDelimiter elem (bindIf csvDelimiter elem (bindIf compressionType elem s)).

Definition parse (s : S3Settings.t) (v : string) : S3Settings.t :=
  foldl bindSegment s (Split v semicolon).

End Binding.

End Described.

(** *** Roles *)

Inductive Role := source | target.

Definition remoteForm (r : Role) : string :=
  match r with source => "SOURCE" | target => "TARGET" end.

Definition canonicalForm (r : Role) : string :=
  match r with source => "source" | target => "target" end.

(** *** Descriptions SetState reads without a nil dereference *)

Definition complete (s : S3Settings.t) : bool :=
  bool_decide (is_Some (S3Settings.CompressionType s))
  && bool_decide (is_Some (S3Settings.CsvDelimiter s))
  && bool_decide (is_Some (S3Settings.CsvRowDelimiter s)).

Definition describable (e : Endpoint.t) : bool :=
  bool_decide (is_Some (Endpoint.EndpointIdentifier e))
  && bool_decide (is_Some (Endpoint.EndpointType e))
  && match Endpoint.EngineName e with
     | None => false
     | Some engine =>
         if bool_decide (engine = "s3") then
           match Endpoint.S3Settings e with
           | Some s => complete s
           | None => true
           end
         else true
     end.

(** *** Runs of access-denied answers

    [deniedRun conn request faults r r']: from the remote state [r],
    [CreateEndpoint] answers [request] with the access-denied faults
    [faults], one after the other, which leaves the remote state [r']. *)

Inductive deniedRun {R} (conn : Client R) (request : CreateEndpointInput.t)
    : list error → R → R → Prop :=
| deniedRun_nil r : deniedRun conn request [] r r
| deniedRun_cons e faults r r' r'' :
    CreateEndpoint conn request r = (Some e, r') →
    hasCode e "AccessDeniedFault" = true →
    deniedRun conn request faults r' r'' →
    deniedRun conn request (e :: faults) r r''.

(** *** Parts of the settings object *)

(** The role and the bucket, which the attribute loop never touches. *)
Definition base (s : S3Settings.t) : option string * option string * option string :=
  (S3Settings.ServiceAccessRoleArn s, S3Settings.BucketName s, S3Settings.BucketFolder s).

(** The settings object Create starts its loop from (lines 152-161). *)
Definition createDefaults (d : ResourceData) : S3Settings.t :=
  S3Settings.mk (Some (GetString d "service_access_role"))
                (Some (GetString d "bucket_name"))
                (Some (GetString d "bucket_folder"))
                (Some "GZIP") (Some ",") (Some (String backslash "n")).

(** No segment of an attribute string binds the field. *)
Definition unbound `{tables : CaseTables} (f : Field) (v : string) : Prop :=
  ∀ elem, elem ∈ Split v semicolon → boundField elem ≠ Some f.

(** *** The calls of a Read *)

Definition isReadCall (c : Call) : bool :=
  match c with
  | CallDescribeEndpoints _ | CallListTagsForResource _ => true
  | _ => false
  end.

Definition isSetTags (c : Call) : bool :=
  match c with
  | CallSetTags _ => true
  | _ => false
  end.

(** *** The keys the operations write and watch *)

(** The attributes SetState writes for a description of the given engine
    (lines 400-436). *)
Definition writtenKeys (engine : string) : list string :=
  ["certificate_arn"; "endpoint_arn"; "endpoint_id"; "endpoint_type"; "engine_name"]
  ++ (if bool_decide (engine = "dynamodb") then ["service_access_role"]
      else if bool_decide (engine = "s3") then
        ["service_access_role"; "bucket_folder"; "bucket_name";
         "extra_connection_attributes"]
      else
        ["database_name"; "extra_connection_attributes"; "port"; "server_name";
         "username"; "kms_key_arn"; "ssl_mode"]).

(** The attributes whose change Update looks at, for the given engine
    (the [HasChange] tests of lines 272-358). *)
Definition settingsKeys (engine : string) : list string :=
  if bool_decide (engine = "dynamodb") then ["service_access_role"]
  else if bool_decide (engine = "s3") then
    ["service_access_role"; "bucket_name"; "bucket_folder";
     "extra_connection_attributes"]
  else ["extra_connection_attributes"].

Definition requestKeys (engine : string) : list string :=
  ["endpoint_type"; "certificate_arn"; "database_name"; "engine_name"]
  ++ settingsKeys engine
  ++ ["password"; "port"; "server_name"; "ssl_mode"; "username"].

Definition watchedKeys (engine : string) : list string :=
  requestKeys engine ++ ["tags"].

(** *** The modify request as a table

    What the partial update carries, field by field: a field is in the
    request exactly when its attribute changed. *)

Definition changedString (d : ResourceData) (key : string) : option string :=
  if HasChange d key then Some (GetString d key) else None.

Definition changedInt (d : ResourceData) (key : string) : option Z :=
  if HasChange d key then Some (GetInt d key) else None.

(** The request of the paths that run through lines 333-363. *)
Definition partialRequest (d : ResourceData) : ModifyEndpointInput.t :=
  let engine := GetString d "engine_name" in
  ModifyEndpointInput.mk
    (Some (GetString d "endpoint_arn"))
    (changedString d "endpoint_type")
    (changedString d "certificate_arn")
    (changedString d "database_name")
    (changedString d "engine_name")
    (if bool_decide (engine = "dynamodb") && HasChange d "service_access_role"
     then Some (DynamoDbSettings.mk (Some (GetString d "service_access_role")))
     else None)
    None
    (if bool_decide (engine = "dynamodb") || bool_decide (engine = "s3") then None
     else changedString d "extra_connection_attributes")
    (changedString d "password")
    (changedInt d "port")
    (changedString d "server_name")
    (changedString d "ssl_mode")
    (changedString d "username").

(** The request of the s3 path that jumps to [DONE]. *)
Definition s3Request (d : ResourceData) (settings : S3Settings.t)
    : ModifyEndpointInput.t :=
  ModifyEndpointInput.mk
    (Some (GetString d "endpoint_arn"))
    (changedString d "endpoint_type")
    (changedString d "certificate_arn")
    (changedString d "database_name")
    (changedString d "engine_name")
    None (Some settings) None None None None None None.

(** The s3 path with a changed settings field. *)
Definition jumps (d : ResourceData) : bool :=
  bool_decide (GetString d "engine_name" = "s3") && s3SettingsChanged d.

Definition anyChanged (d : ResourceData) (keys : list string) : bool :=
  existsb (HasChange d) keys.

(** The tag block of lines 358-363, followed by [next]. *)
Definition syncTagsThen {R} (conn : Client R) (d : ResourceData)
    (next : M R (option error)) : M R (option error) :=
  if HasChange d "tags" then
    let arn := GetString d "endpoint_arn" in
    err ← invoke (CallSetTags arn) (SetTags conn arn d);
    match err with
    | Some e => mret (Some e)
    | None => next
    end
  else next.

(** The request and the flag after lines 267-290, and what lines
    333-356 make of them. *)
Definition commonChanges (d : ResourceData) : ModifyEndpointInput.t * bool :=
  let request :=
    ModifyEndpointInput.mk (Some (GetString d "endpoint_arn"))
      None None None None None None None None None None None None in
  let st := (request, false) in
  let st := ifChanged d "endpoint_type"
              (ModifyEndpointInput.set_EndpointType (GetString d "endpoint_type")) st in
  let st := ifChanged d "certificate_arn"
              (ModifyEndpointInput.set_CertificateArn (GetString d "certificate_arn")) st in
  let st := ifChanged d "database_name"
              (ModifyEndpointInput.set_DatabaseName (GetString d "database_name")) st in
  ifChanged d "engine_name"
    (ModifyEndpointInput.set_EngineName (GetString d "engine_name")) st.

Definition restChanges (d : ResourceData) (st : ModifyEndpointInput.t * bool)
    : ModifyEndpointInput.t * bool :=
  let st := ifChanged d "password"
              (ModifyEndpointInput.set_Password (GetString d "password")) st in
  let st := ifChanged d "port"
              (ModifyEndpointInput.set_Port (GetInt d "port")) st in
  let st := ifChanged d "server_name"
              (ModifyEndpointInput.set_ServerName (GetString d "server_name")) st in
  let st := ifChanged d "ssl_mode"
              (ModifyEndpointInput.set_SslMode (GetString d "ssl_mode")) st in
  ifChanged d "username"
    (ModifyEndpointInput.set_Username (GetString d "username")) st.

(** Update as its decision table. *)
Definition updatePlan {R} `{tables : CaseTables}
    (conn : Client R) (d : ResourceData) : M R (option error) :=
  if jumps d then
    settings ← deref (modifyS3Settings d);
    updateDone conn (s3Request d settings, true)
  else
    syncTagsThen conn d
      (updateDone conn (partialRequest d,
                        anyChanged d (requestKeys (GetString d "engine_name")))).

(** *** The attribute names Read writes *)

Definition nameOf (f : Field) : string :=
  match f with
  | compressionType => "compressionType"
  | csvDelimiter => "csvDelimiter"
  | csvRowDelimiter => "csvRowDelimiter"
  end.

(** The value of the last segment that binds a field, if any does. *)
Definition lastBound `{tables : CaseTables}
    (f : Field) (elems : list string) : option string :=
  foldl (λ found elem,
           if bool_decide (boundField elem = Some f)
           then Some (Micro.valueOf elem) else found)
        None elems.

(** *** Calls *)

Definition isCreateCall (c : Call) : bool :=
  match c with
  | CallCreateEndpoint _ => true
  | _ => false
  end.

Definition isModifyCall (c : Call) : bool :=
  match c with
  | CallModifyEndpoint _ => true
  | _ => false
  end.

(** *** Create requests and their echo *)


(** The connection fields of a create request are all absent. *)
Definition noConnection (request : CreateEndpointInput.t) : Prop :=
  CreateEndpointInput.Password request = None
  ∧ CreateEndpointInput.Port request = None
  ∧ CreateEndpointInput.ServerName request = None
  ∧ CreateEndpointInput.Username request = None
  ∧ CreateEndpointInput.DatabaseName request = None
  ∧ CreateEndpointInput.ExtraConnectionAttributes request = None
  ∧ CreateEndpointInput.KmsKeyId request = None
  ∧ CreateEndpointInput.SslMode request = None.

(** An optional attribute as Create passes it on: left out when it is
    not set. *)
Definition whenSet (d : ResourceData) (key : string) : option string :=
  if (GetOk d key).2 then Some (GetString d key) else None.

(** The description gives back what a create request asked for: the
    identifier, the engine, the role in upper or lower case, and the
    connection fields (the password is never given back). *)
Definition echoes `{tables : CaseTables}
    (request : CreateEndpointInput.t) (endpoint : Endpoint.t) : Prop :=
  Endpoint.EndpointIdentifier endpoint = CreateEndpointInput.EndpointIdentifier request
  ∧ ToLower <$> Endpoint.EndpointType endpoint = CreateEndpointInput.EndpointType request
  ∧ Endpoint.EngineName endpoint = CreateEndpointInput.EngineName request
  ∧ Endpoint.ServerName endpoint = CreateEndpointInput.ServerName request
  ∧ Endpoint.Port endpoint = CreateEndpointInput.Port request
  ∧ Endpoint.Username endpoint = CreateEndpointInput.Username request
  ∧ Endpoint.DatabaseName endpoint = CreateEndpointInput.DatabaseName request
  ∧ Endpoint.ExtraConnectionAttributes endpoint
    = CreateEndpointInput.ExtraConnectionAttributes request
  ∧ Endpoint.KmsKeyId endpoint = CreateEndpointInput.KmsKeyId request
  ∧ Endpoint.SslMode endpoint = CreateEndpointInput.SslMode request.

(** The attributes of the relational variant that hold strings. *)
Definition relationalStrings : list string :=
  ["endpoint_id"; "endpoint_type"; "engine_name"; "server_name"; "username";
   "database_name"; "extra_connection_attributes"; "kms_key_arn"; "ssl_mode";
   "password"].

(** ** A scripted control plane, and sample resources

    For running the operations on concrete inputs: the remote state is
    the list of answers still to be given to [CreateEndpoint] (success
    once it is used up); every other operation has one fixed answer. *)

Module Sample.

(** The operations are run below on ASCII keys and endpoint types, on
    which [ToLower] does not consult the case tables; the examples take
    the table that leaves a string as it is. *)
#[global] Instance plainTables : CaseTables := λ s, s.

Definition client (described : error + list Endpoint.t)
    (tagged : error + gmap string string) (modified : option error)
    (budget : nat) : Client (list (option error)) :=
  mkClient _
    (λ _ script, match script with
                 | [] => (None, [])
                 | answer :: rest => (answer, rest)
                 end)
    (λ _ script, (described, script))
    (λ _ script, (tagged, script))
    (λ _ script, (modified, script))
    (λ _ script, (None, script))
    (λ _ _ script, (None, script))
    (λ _, budget).

Definition attrs (l : list (string * string)) : gmap string Value :=
  list_to_map (prod_map id VString <$> l).

(** An s3 endpoint as the control plane describes it. *)
Definition s3Endpoint (endpointType : string) (settings : option S3Settings.t)
    : Endpoint.t :=
  Endpoint.mk (Some "ep1") (Some endpointType) (Some "s3")
    (Some "arn:aws:dms:endpoint:EP1") None None None None None None None None
    None settings.

Definition s3Described : S3Settings.t :=
  S3Settings.mk (Some "role-a") (Some "bucket") (Some "folder")
    (Some "GZIP") (Some ",") (Some (String backslash "n")).

(** The stored attributes of an s3 endpoint after a Read. *)
Definition s3Stored : gmap string Value :=
  attrs [ ("endpoint_id", "ep1"); ("endpoint_arn", "arn:aws:dms:endpoint:EP1");
          ("endpoint_type", "target"); ("engine_name", "s3");
          ("service_access_role", "role-a"); ("bucket_name", "bucket");
          ("bucket_folder", "folder");
          ("extra_connection_attributes",
           "compressionType=GZIP;csvDelimiter=,;csvRowDelimiter=\n") ].

Definition world (d : ResourceData) : World (list (option error)) :=
  mkWorld d [] [].

Definition okClient : Client (list (option error)) :=
  client (inr [s3Endpoint "TARGET" (Some s3Described)]) (inr ∅) None 3.

(** A control plane that knows no endpoint of that identifier. *)
Definition emptyClient : Client (list (option error)) :=
  client (inl (AwsError "ResourceNotFoundFault" "No Endpoints found"))
         (inr ∅) None 3.

(** A control plane that answers the lookup without an error and
    without an endpoint. *)
Definition emptyAnswerClient : Client (list (option error)) :=
  client (inr []) (inr ∅) None 3.

(** A control plane that describes the s3 endpoint without a settings
    object. *)
Definition bareClient : Client (list (option error)) :=
  client (inr [s3Endpoint "TARGET" None]) (inr ∅) None 3.

(** An s3 endpoint of which nothing has changed. *)
Definition s3Unchanged : ResourceData := mkResourceData "ep1" s3Stored s3Stored.

(** The same with a new bucket folder and a new tag. *)
Definition s3FolderAndTags : ResourceData :=
  mkResourceData "ep1" s3Stored
    (<["bucket_folder" := VString "other"]>
       (<["tags" := VMap {["team" := "data"]}]> s3Stored)).

(** The same with a new bucket folder, the configuration naming one
    attribute only. *)
Definition s3FolderOneAttribute : ResourceData :=
  mkResourceData "ep1" s3Stored
    (<["bucket_folder" := VString "other"]>
       (<["extra_connection_attributes" := VString "compressionType=NONE"]>
          s3Stored)).

(** An s3 endpoint to create, with no attribute string. *)
Definition s3New : ResourceData :=
  mkResourceData "" ∅
    (attrs [ ("endpoint_id", "ep1"); ("endpoint_type", "target");
             ("engine_name", "s3"); ("service_access_role", "role-a");
             ("bucket_name", "bucket"); ("bucket_folder", "folder") ]).

(** The same with two attributes, out of order and in another case. *)
Definition s3NewWithAttributes : ResourceData :=
  mkResourceData "" ∅
    (<["extra_connection_attributes" :=
         VString "CSVDelimiter=|;CompressionType=NONE"]> (view s3New)).

Definition denied : error := AwsError "AccessDeniedFault" "not yet".
Definition conflict : error := AwsError "ResourceAlreadyExistsFault" "exists".

Definition spellingUpper (f : Field) : string :=
  match f with
  | compressionType => "CompressionType"
  | csvDelimiter => "CSVDelimiter"
  | csvRowDelimiter => "CSVROWDELIMITER"
  end.

Definition valueGiven (f : Field) : string :=
  match f with
  | compressionType => "NONE"
  | csvDelimiter => "|"
  | csvRowDelimiter => "unused"
  end.

End Sample.

(** *** A relational endpoint, for running the operations *)

Module SampleMysql.

(** The stored attributes of a mysql endpoint after a Read. *)
Definition mysqlStored : gmap string Value :=
  <["port" := VInt 3306]>
    (Sample.attrs
       [ ("endpoint_id", "db1"); ("endpoint_arn", "arn:aws:dms:endpoint:DB1");
         ("endpoint_type", "source"); ("engine_name", "mysql");
         ("server_name", "db.example.com"); ("username", "admin");
         ("password", "secret"); ("database_name", "shop");
         ("ssl_mode", "none") ]).

(** A mysql endpoint with a new port and a new tag. *)
Definition mysqlPortAndTags : ResourceData :=
  mkResourceData "db1" mysqlStored
    (<["port" := VInt 3307]> (<["tags" := VMap {["team" := "data"]}]> mysqlStored)).

(** A mysql endpoint with a new tag only. *)
Definition mysqlTags : ResourceData :=
  mkResourceData "db1" mysqlStored
    (<["tags" := VMap {["team" := "data"]}]> mysqlStored).

(** A mysql endpoint as the control plane describes it. *)
Definition mysqlEndpoint : Endpoint.t :=
  Endpoint.mk (Some "db1") (Some "SOURCE") (Some "mysql")
    (Some "arn:aws:dms:endpoint:DB1") None (Some "shop") None (Some 3307)
    (Some "db.example.com") (Some "admin") None (Some "none") None None.

Definition mysqlClient : Client (list (option error)) :=
  Sample.client (inr [mysqlEndpoint]) (inr {["team" := "data"]}) None 3.

(** A control plane on which the tag synchronization fails. *)
Definition tagFailure : error := AwsError "InvalidResourceStateFault" "busy".

Definition failingTagsClient : Client (list (option error)) :=
  mkClient _
    (λ _ script, (None, script))
    (λ _ script, (inr [mysqlEndpoint], script))
    (λ _ script, (inl tagFailure, script))
    (λ _ script, (None, script))
    (λ _ script, (Some tagFailure, script))
    (λ _ _ script, (Some tagFailure, script))
    (λ _, 3%nat).

(** A control plane on which the modify call fails. *)
Definition failingModifyClient : Client (list (option error)) :=
  Sample.client (inr [mysqlEndpoint]) (inr ∅) (Some tagFailure) 3.

End SampleMysql.

Module SampleDynamo.

(** The stored attributes of a dynamodb endpoint after a Read. *)
Definition dynamoStored : gmap string Value :=
  Sample.attrs
    [ ("endpoint_id", "dy1"); ("endpoint_arn", "arn:aws:dms:endpoint:DY1");
      ("endpoint_type", "target"); ("engine_name", "dynamodb");
      ("service_access_role", "role-a") ].

(** The same with a new role and an attribute string, which the dynamodb
    path does not test. *)
Definition dynamoRoleAndAttributes : ResourceData :=
  mkResourceData "dy1" dynamoStored
    (<["service_access_role" := VString "role-b"]>
       (<["extra_connection_attributes" := VString "a=b"]> dynamoStored)).

Definition dynamoEndpoint : Endpoint.t :=
  Endpoint.mk (Some "dy1") (Some "TARGET") (Some "dynamodb")
    (Some "arn:aws:dms:endpoint:DY1") None None None None None None None None
    (Some (DynamoDbSettings.mk (Some "role-b"))) None.

Definition dynamoClient : Client (list (option error)) :=
  Sample.client (inr [dynamoEndpoint]) (inr ∅) None 3.

End SampleDynamo.

(** * Properties *)

(** ** Facts about the string functions *)

Module StringFacts.

Lemma Split_before_after s c :
  Split s c = before c s :: match after c s with
                            | Some rest => Split rest c
                            | None => []
                            end.
Proof.
  induction s as [|b s IH]; simpl; [done|].
  case_bool_decide; [done|]. by rewrite IH.
Qed.

Lemma Split_first s c : Split s c !! 0%nat = Some (before c s).
Proof. by rewrite Split_before_after. Qed.

Lemma Split_second s c :
  Split s c !! 1%nat = before c <$> after c s.
Proof.
  rewrite Split_before_after. simpl.
  destruct (after c s) as [rest|]; simpl; [|done].
  apply Split_first.
Qed.

Lemma Split_length s c : (0 < length (Split s c))%nat.
Proof. rewrite Split_before_after. simpl. lia. Qed.

Lemma after_is_Some s c : is_Some (after c s) ↔ has_byte c s = true.
Proof.
  induction s as [|b s IH]; simpl.
  - split; [by intros [? ?]|done].
  - case_bool_decide; simpl; [|done]. split; eauto.
Qed.

Lemma after_None s c : after c s = None ↔ has_byte c s = false.
Proof.
  rewrite eq_None_not_Some, after_is_Some. by destruct (has_byte c s).
Qed.

Lemma before_absent s c : has_byte c s = false → before c s = s.
Proof.
  induction s as [|b s IH]; simpl; [done|].
  case_bool_decide; simpl; [done|]. intros Hs. by rewrite IH.
Qed.

Lemma before_app s c rest : has_byte c s = false → before c (s +:+ String c rest) = s.
Proof.
  induction s as [|b s IH]; simpl.
  - by rewrite bool_decide_eq_true_2.
  - case_bool_decide; simpl; [done|]. intros Hs. by rewrite IH.
Qed.

Lemma after_app s c rest :
  has_byte c s = false → after c (s +:+ String c rest) = Some rest.
Proof.
  induction s as [|b s IH]; simpl.
  - by rewrite bool_decide_eq_true_2.
  - case_bool_decide; simpl; [done|]. apply IH.
Qed.

Lemma has_byte_app c s t : has_byte c (s +:+ t) = has_byte c s || has_byte c t.
Proof.
  induction s as [|b s IH]; simpl; [done|]. by rewrite IH, orb_assoc.
Qed.

Lemma Split_absent s c : has_byte c s = false → Split s c = [s].
Proof.
  intros H. rewrite Split_before_after, before_absent by done.
  by apply after_None in H as ->.
Qed.

Lemma Split_app s c rest :
  has_byte c s = false → Split (s +:+ String c rest) c = s :: Split rest c.
Proof.
  intros H. by rewrite Split_before_after, before_app, after_app.
Qed.

(** Splitting a joined list of separator-free pieces gives the pieces. *)
Lemma Split_Join pieces c :
  pieces ≠ [] → Forall (λ p, has_byte c p = false) pieces →
  Split (Join pieces c) c = pieces.
Proof.
  induction pieces as [|p [|q rest] IH]; intros Hne Hall; [done| |].
  - simpl. apply Split_absent. by inversion Hall.
  - inversion Hall as [|? ? Hp Hrest]; subst.
    change (Join (p :: q :: rest) c) with (p +:+ String c (Join (q :: rest) c)).
    rewrite Split_app by done. f_equal. by apply IH.
Qed.

(** Lowering a byte neither makes nor removes a [;] or an [=]. *)
Lemma lower_byte_keeps b c :
  c = semicolon ∨ c = equals → (lower_byte b = c ↔ b = c).
Proof.
  intros [-> | ->]; destruct b as [[] [] [] [] [] [] [] []]; by vm_compute.
Qed.

Lemma has_byte_lowerASCII s c :
  c = semicolon ∨ c = equals → has_byte c (lowerASCII s) = has_byte c s.
Proof.
  intros Hc. induction s as [|b s IH]; simpl; [done|].
  rewrite IH. f_equal. apply bool_decide_ext. by apply lower_byte_keeps.
Qed.

(** On ASCII text the case tables are not consulted. *)
Lemma ToLower_ASCII `{tables : CaseTables} s :
  isASCII s = true → ToLower s = lowerASCII s.
Proof. unfold ToLower. by intros ->. Qed.

(** On any other text the result is the tables'. *)
Lemma ToLower_unicode `{tables : CaseTables} s :
  isASCII s = false → ToLower s = unicodeLower s.
Proof. unfold ToLower. by intros ->. Qed.

End StringFacts.
Import StringFacts.

(** ** The codec *)

Module CodecFacts.

Section Loop.
Context `{tables : CaseTables}.

(** The loop body, in the vocabulary of the micro-format: the index
    expressions [vals[0]] and [vals[1]] are the key and the text between
    the first two [=]. *)
Lemma parseElem_unfold s elem :
  parseElem s elem =
    match boundField elem with
    | None => Some s
    | Some f => v ← before equals <$> after equals elem; Some (setField f v s)
    end.
Proof.
  unfold parseElem, boundField, mentions, keyOf.
  rewrite Split_first, Split_second. simpl.
  repeat (case_match; simpl; try done).
Qed.

Lemma parseElem_bound s elem f rest :
  boundField elem = Some f → after equals elem = Some rest →
  parseElem s elem = Some (setField f (before equals rest) s).
Proof. intros Hf Hrest. by rewrite parseElem_unfold, Hf, Hrest. Qed.

Lemma parseElem_ignored s elem :
  boundField elem = None → parseElem s elem = Some s.
Proof. intros Hf. by rewrite parseElem_unfold, Hf. Qed.

Lemma parseElem_panics s elem :
  parseElem s elem = None ↔ boundField elem ≠ None ∧ has_byte equals elem = false.
Proof.
  rewrite parseElem_unfold, <- after_None.
  destruct (boundField elem) as [f|]; destruct (after equals elem); simpl;
    split; try done; intros [? ?]; done.
Qed.

Lemma parseElem_bindSegment s elem :
  boundField elem = None ∨ has_byte equals elem = true →
  parseElem s elem = Some (bindSegment s elem).
Proof.
  unfold bindSegment, Micro.valueOf. rewrite parseElem_unfold.
  intros [-> | Heq]; [done|].
  apply after_is_Some in Heq as [rest ->]. by destruct (boundField elem).
Qed.

Lemma boundField_Some elem f :
  boundField elem = Some f → mentions (keyOf elem) f = true.
Proof.
  unfold boundField. intros H.
  repeat case_match; try done; by inversion H; subst.
Qed.

(** No field is bound exactly when the key mentions none of the three. *)
Lemma boundField_None elem :
  boundField elem = None ↔ ∀ f, mentions (keyOf elem) f = false.
Proof.
  unfold boundField. split.
  - intros H f. destruct f; repeat case_match; done.
  - intros H. by rewrite !H.
Qed.

Lemma parseElems_bindSegment s elems :
  Forall (λ elem, boundField elem = None ∨ has_byte equals elem = true) elems →
  parseElems s elems = Some (foldl bindSegment s elems).
Proof.
  intros Hall. revert s.
  induction Hall as [|elem elems Helem _ IH]; intros s; simpl; [done|].
  rewrite parseElem_bindSegment by done. simpl. apply IH.
Qed.

Lemma parseElems_total s elems :
  is_Some (parseElems s elems) ↔
  Forall (λ elem, boundField elem = None ∨ has_byte equals elem = true) elems.
Proof.
  split.
  - revert s. induction elems as [|elem elems IH]; intros s Hsome; [done|].
    simpl in Hsome. destruct (parseElem s elem) as [s'|] eqn:Helem;
      simpl in Hsome; [|by destruct Hsome].
    constructor; [|by eapply IH].
    destruct (boundField elem) eqn:Hf; [|by left]. right.
    destruct (has_byte equals elem) eqn:Hb; [done|].
    assert (parseElem s elem = None) as Hnone
      by (apply parseElem_panics; by rewrite Hf).
    congruence.
  - intros Hall. rewrite parseElems_bindSegment by done. eauto.
Qed.

Lemma parseExtraAttributes_loop s v :
  parseExtraAttributes s v = parseElems s (Split v semicolon).
Proof.
  unfold parseExtraAttributes.
  rewrite bool_decide_eq_true_2; [done|]. apply Split_length.
Qed.

Lemma parseExtraAttributes_empty s : parseExtraAttributes s "" = Some s.
Proof. done. Qed.

(** The segments of [v] as the properties quantify over them. *)
Lemma segments_ok v :
  (∀ elem f, elem ∈ Split v semicolon → mentions (keyOf elem) f = true →
             has_byte equals elem = true) ↔
  Forall (λ elem, boundField elem = None ∨ has_byte equals elem = true)
         (Split v semicolon).
Proof.
  rewrite Forall_forall. split.
  - intros H elem Hin. destruct (boundField elem) as [f|] eqn:Hf; [|by left].
    right. apply (H elem f Hin). by apply boundField_Some.
  - intros H elem f Hin Hm. destruct (H elem Hin) as [Hnone|]; [|done].
    rewrite boundField_None in Hnone. by rewrite Hnone in Hm.
Qed.

(** A field no segment binds keeps its value through the loop. *)
Lemma getField_setField f g v s :
  getField f (setField g v s) = if bool_decide (f = g) then Some v else getField f s.
Proof. by destruct f, g, s. Qed.

Lemma parseElem_keeps s s' elem f :
  parseElem s elem = Some s' → boundField elem ≠ Some f →
  getField f s' = getField f s.
Proof.
  rewrite parseElem_unfold. intros Hs Hf.
  destruct (boundField elem) as [g|]; simplify_option_eq; [|done].
  rewrite getField_setField. case_bool_decide; congruence.
Qed.

Lemma parseElems_keeps s s' elems f :
  parseElems s elems = Some s' →
  (∀ elem, elem ∈ elems → boundField elem ≠ Some f) →
  getField f s' = getField f s.
Proof.
  revert s. induction elems as [|elem elems IH]; intros s Hs Hf; simpl in Hs.
  - congruence.
  - destruct (parseElem s elem) as [s1|] eqn:Helem; simpl in Hs; [|done].
    rewrite (IH s1) by (try done; intros; apply Hf; by constructor).
    eapply parseElem_keeps; [done|]. apply Hf. by constructor.
Qed.

(** The loop never touches the role and the bucket. *)
Lemma parseElem_base s s' elem : parseElem s elem = Some s' → base s' = base s.
Proof.
  rewrite parseElem_unfold. intros Hs.
  destruct (boundField elem) as [[]|], (after equals elem); simpl in Hs;
    inversion Hs; by destruct s.
Qed.

Lemma parseElems_base s s' elems : parseElems s elems = Some s' → base s' = base s.
Proof.
  revert s. induction elems as [|elem elems IH]; intros s Hs; simpl in Hs.
  - congruence.
  - destruct (parseElem s elem) as [s1|] eqn:Helem; simpl in Hs; [|done].
    rewrite (IH s1) by done. by eapply parseElem_base.
Qed.

(** A key that is not ASCII is matched as the case tables lower it.
    With tables that send the capital dotted I (U+0130, the bytes C4 B0)
    to [i], as those of package [unicode] do, the key [csvdelİmiter]
    binds the column delimiter, and the segment [compressİontype], which
    has no [=], panics. *)
Lemma parse_follows_the_case_tables s :
  unicodeLower "csvdelİmiter" = "csvdelimiter" →
  unicodeLower "compressİontype" = "compressiontype" →
  parseExtraAttributes s "csvdelİmiter=x" = Some (setField csvDelimiter "x" s)
  ∧ parseExtraAttributes s "compressİontype" = None.
Proof.
  intros Hdelimiter Hcompression. split.
  - rewrite parseExtraAttributes_loop.
    change (Split "csvdelİmiter=x" semicolon) with ["csvdelİmiter=x"].
    cbn [parseElems]. rewrite parseElem_unfold.
    unfold boundField, mentions.
    change (keyOf "csvdelİmiter=x") with "csvdelİmiter".
    by rewrite ToLower_unicode, Hdelimiter.
  - rewrite parseExtraAttributes_loop.
    change (Split "compressİontype" semicolon) with ["compressİontype"].
    cbn [parseElems]. rewrite parseElem_unfold.
    unfold boundField, mentions.
    change (keyOf "compressİontype") with "compressİontype".
    by rewrite ToLower_unicode, Hcompression.
Qed.

End Loop.

End CodecFacts.
Import CodecFacts.

(** C10.  The attribute loop runs to its end exactly on the strings in
    which every segment whose key mentions one of the three tokens (in
    any case) has an [=]: on those it yields a settings object, and on
    every other string the index [vals[1]] is out of range and the parse
    panics ([None]), as it does on ["compressiontype"]. *)
Theorem parse_total_iff_recognised_segments_have_equals `{tables : CaseTables}
    (s : S3Settings.t) (v : string) :
  (is_Some (parseExtraAttributes s v) ↔
   ∀ elem f, elem ∈ Split v semicolon → mentions (keyOf elem) f = true →
             has_byte equals elem = true)
  ∧ (parseExtraAttributes s v = None ↔
     ∃ elem f, elem ∈ Split v semicolon ∧ mentions (keyOf elem) f = true
               ∧ has_byte equals elem = false)
  ∧ parseExtraAttributes s "compressiontype" = None.
Proof.
  assert (is_Some (parseExtraAttributes s v) ↔
          ∀ elem f, elem ∈ Split v semicolon → mentions (keyOf elem) f = true →
                    has_byte equals elem = true) as Htotal.
  { by rewrite parseExtraAttributes_loop, parseElems_total, segments_ok. }
  split; [done|]. split; [|done].
  rewrite eq_None_not_Some, Htotal. split.
  - intros Hnot.
    destruct (decide (Exists (λ elem, boundField elem ≠ None
                                      ∧ has_byte equals elem = false)
                             (Split v semicolon))) as [Hex|Hno].
    + apply Exists_exists in Hex as (elem & Hin & Hf & Hb).
      destruct (boundField elem) as [f|] eqn:Hbound; [|done].
      exists elem, f. repeat split; try done. by apply boundField_Some.
    + exfalso. apply Hnot. intros elem f Hin Hm.
      destruct (has_byte equals elem) eqn:Hb; [done|].
      exfalso. apply Hno, Exists_exists. exists elem. repeat split; try done.
      rewrite boundField_None. intros Hall. by rewrite Hall in Hm.
  - intros (elem & f & Hin & Hm & Hb) Hall.
    specialize (Hall elem f Hin Hm). congruence.
Qed.

(** C4 (as amended).  On a string in which every segment that mentions a
    token has an [=], the loop gives what the micro-format says: the
    string is cut at every [;]; the key of a segment is its text before
    the first [=] and its value the text between the first [=] and the
    second (the rest of the segment when there is no second); the segment
    binds the first of compressionType, csvDelimiter, csvRowDelimiter
    whose token its lower-cased key contains, and a segment whose key
    contains none of them changes nothing. *)
Theorem parse_binds_segments `{tables : CaseTables} (s : S3Settings.t) (v : string) :
  (∀ elem f, elem ∈ Split v semicolon → mentions (keyOf elem) f = true →
             has_byte equals elem = true) →
  parseExtraAttributes s v = Some (foldl bindSegment s (Split v semicolon))
  ∧ (∀ s' elem, boundField elem = None → parseElem s' elem = Some s')
  ∧ (∀ s' elem f rest,
       boundField elem = Some f → after equals elem = Some rest →
       parseElem s' elem = Some (setField f (before equals rest) s')).
Proof.
  intros Hok. split; [|split].
  - rewrite parseExtraAttributes_loop. apply parseElems_bindSegment.
    by apply segments_ok.
  - intros. by apply parseElem_ignored.
  - intros. by apply parseElem_bound.
Qed.

Lemma parse_binds_segments_witness :
  parseExtraAttributes Sample.s3Described "CSVDelimiter=a=b;x=1;CompressionType=NONE"
  = Some (S3Settings.mk (Some "role-a") (Some "bucket") (Some "folder")
            (Some "NONE") (Some "a") (Some (String backslash "n"))).
Proof.
  refine (eq_trans
    (proj1 (parse_binds_segments Sample.s3Described
              "CSVDelimiter=a=b;x=1;CompressionType=NONE" _)) _).
  - intros elem f Hin Hm.
    vm_compute in Hin.
    repeat (apply elem_of_cons in Hin as [-> | Hin]; [by vm_compute|]).
    by apply elem_of_nil in Hin.
  - reflexivity.
Defined.

(** C4, as first stated, fails: a value holding an [=] is cut at it, where
    "everything after the first [=]" keeps it; and a key that contains
    two tokens binds one field, not both. *)
Lemma parse_is_not_the_described_one :
  parseExtraAttributes Sample.s3Described "csvDelimiter=a=b"
    = Some (setField csvDelimiter "a" Sample.s3Described)
  ∧ Described.parse Sample.s3Described "csvDelimiter=a=b"
    = setField csvDelimiter "a=b" Sample.s3Described
  ∧ parseExtraAttributes Sample.s3Described "csvDelimiter=a=b"
    ≠ Some (Described.parse Sample.s3Described "csvDelimiter=a=b")
  ∧ parseExtraAttributes Sample.s3Described "compressiontype-csvdelimiter=x"
    ≠ Some (Described.parse Sample.s3Described "compressiontype-csvdelimiter=x").
Proof. repeat split; by vm_compute. Qed.

(** ** The resource data *)

Module DataFacts.

Lemma Get_Set_eq d key v : Get (Set_ key v d) key = v.
Proof. unfold Get, read, Set_. simpl. by rewrite lookup_insert_eq. Qed.

Lemma Get_Set_ne d key key' v : key ≠ key' → Get (Set_ key v d) key' = Get d key'.
Proof. intros. unfold Get, read, Set_. simpl. by rewrite lookup_insert_ne. Qed.

Lemma GetString_Set_eq d key s : GetString (Set_ key (VString s) d) key = s.
Proof. unfold GetString. by rewrite Get_Set_eq. Qed.

Lemma GetString_Set_ne d key key' v :
  key ≠ key' → GetString (Set_ key v d) key' = GetString d key'.
Proof. intros. unfold GetString. by rewrite Get_Set_ne. Qed.

Lemma GetString_SetId d id key : GetString (SetId id d) key = GetString d key.
Proof. done. Qed.

(** [GetOk] says "not set" only of the zero value. *)
Lemma GetOk_string d key :
  typeOf key = TypeString →
  GetOk d key = (GetString d key, true) ∨
  (GetOk d key = (GetString d key, false) ∧ GetString d key = "").
Proof.
  intros Hty. unfold GetOk, GetString. rewrite Hty. simpl.
  case_bool_decide as Hz; [by left|]. right.
  by rewrite Hz.
Qed.

Lemma HasChange_same d key : state d = view d → HasChange d key = false.
Proof.
  intros Heq. unfold HasChange, Get. rewrite Heq.
  by apply bool_decide_eq_false_2; intros [].
Qed.

End DataFacts.
Import DataFacts.

(** ** The request Create builds *)

Module CreateFacts.

(** For an s3 endpoint the settings of the request are the defaults run
    through the attribute loop (a string that is not set is the empty
    string, on which the loop changes nothing). *)
Lemma createRequest_S3Settings `{tables : CaseTables} d :
  GetString d "engine_name" = "s3" →
  CreateEndpointInput.S3Settings <$> createRequest d
  = Some <$> parseExtraAttributes (createDefaults d)
               (GetString d "extra_connection_attributes").
Proof.
  intros Hengine. unfold createRequest. rewrite Hengine.
  fold (createDefaults d).
  destruct (GetOk d "certificate_arn") as [cert certOk].
  destruct (GetOk_string d "extra_connection_attributes" eq_refl)
    as [-> | [-> ->]]; simpl.
  - destruct (parseExtraAttributes _ _); simpl; [|done]. by destruct certOk.
  - by destruct certOk.
Qed.

End CreateFacts.
Import CreateFacts.

(** ** Attribute strings in any order and case *)

(** A key of ASCII bytes that lower-cases to a token holds no [;] and no
    [=]: lowering keeps these two bytes, and no token has them. *)
Lemma ASCII_spelling_plain `{tables : CaseTables} (key : string) (f : Field) :
  isASCII key = true → ToLower key = token f →
  has_byte semicolon key = false ∧ has_byte equals key = false.
Proof.
  intros Hascii Hkey. rewrite ToLower_ASCII in Hkey by done.
  rewrite <- (has_byte_lowerASCII key semicolon), <- (has_byte_lowerASCII key equals),
    Hkey by auto.
  by destruct f.
Qed.

Section Rendering.
Context `{tables : CaseTables}.
Variables spelling value : Field → string.
Hypothesis spelled : ∀ f, ToLower (spelling f) = token f.
Hypothesis plain :
  ∀ f, has_byte semicolon (spelling f) = false
       ∧ has_byte equals (spelling f) = false.

Lemma spelling_free f c :
  c = semicolon ∨ c = equals → has_byte c (spelling f) = false.
Proof. intros [-> | ->]; apply plain. Qed.

Lemma keyOf_segment f : keyOf (segment spelling value f) = spelling f.
Proof. apply before_app, spelling_free. by right. Qed.

Lemma boundField_segment f : boundField (segment spelling value f) = Some f.
Proof.
  unfold boundField, mentions. rewrite keyOf_segment, spelled. by destruct f.
Qed.

Lemma parseElem_segment s f :
  parseElem s (segment spelling value f)
  = Some (setField f (before equals (value f)) s).
Proof.
  apply parseElem_bound.
  - apply boundField_segment.
  - apply after_app, spelling_free. by right.
Qed.

Lemma parseElems_segments s order :
  parseElems s (segment spelling value <$> order)
  = Some (foldl (λ s f, setField f (before equals (value f)) s) s order).
Proof.
  revert s. induction order as [|f order IH]; intros s; simpl; [done|].
  rewrite parseElem_segment. simpl. apply IH.
Qed.

Lemma segment_free f :
  has_byte semicolon (value f) = false →
  has_byte semicolon (segment spelling value f) = false.
Proof.
  intros Hv. unfold segment. rewrite has_byte_app. simpl.
  rewrite spelling_free, Hv by (by left). done.
Qed.

Lemma parse_render s order :
  (∀ f, f ∈ order → has_byte semicolon (value f) = false) →
  parseExtraAttributes s (render spelling value order)
  = Some (foldl (λ s f, setField f (before equals (value f)) s) s order).
Proof.
  intros Hv. rewrite parseExtraAttributes_loop.
  destruct order as [|f order]; [done|].
  unfold render. rewrite Split_Join.
  - apply parseElems_segments.
  - done.
  - apply Forall_fmap, Forall_forall. intros g Hg. apply segment_free.
    by apply Hv.
Qed.

End Rendering.

Lemma getField_foldl (given : Field → string) s order f :
  getField f (foldl (λ s f, setField f (given f) s) s order)
  = if bool_decide (f ∈ order) then Some (given f) else getField f s.
Proof.
  revert s. induction order as [|g order IH]; intros s; cbn [foldl].
  - by rewrite bool_decide_eq_false_2 by apply not_elem_of_nil.
  - rewrite IH, getField_setField.
    pose proof (elem_of_cons order f g) as Hcons.
    repeat case_bool_decide; subst; try done; exfalso; intuition.
Qed.

Lemma serialize_Some s x :
  serialize s = Some x →
  ∃ value, (∀ f, getField f s = Some (value f)) ∧ x = canonical value.
Proof.
  unfold serialize. destruct s as [? ? ? [c|] [dl|] [r|]]; simpl; try done.
  intros Hx. inversion Hx.
  exists (λ f, match f with
               | compressionType => c | csvDelimiter => dl | csvRowDelimiter => r
               end).
  split; [by intros []|done].
Qed.

Lemma canonical_not_empty value : canonical value ≠ "".
Proof. done. Qed.

Lemma serialize_canonical s (value : Field → string) :
  (∀ f, getField f s = Some (value f)) → serialize s = Some (canonical value).
Proof.
  intros H. unfold serialize.
  rewrite (H compressionType : S3Settings.CompressionType s = _).
  rewrite (H csvDelimiter : S3Settings.CsvDelimiter s = _).
  by rewrite (H csvRowDelimiter : S3Settings.CsvRowDelimiter s = _).
Qed.

(** ** Running the operations *)

#[local] Arguments Set_ : simpl never.
#[local] Arguments SetId : simpl never.
#[local] Arguments GetString : simpl never.
#[local] Arguments HasChange : simpl never.
#[local] Arguments serialize : simpl never.
#[local] Arguments ToLower : simpl never.

Ltac run :=
  unfold deref, index, modifyData, getData, invoke, panic;
  unfold mbind, mret, M_bind, M_ret; simpl.

Section Running.
Context {R : Type} `{tables : CaseTables} (conn : Client R).

(** SetState returns on every description it can read without a nil
    dereference, and touches neither the remote system nor the log. *)
Lemma SetState_returns (endpoint : Endpoint.t) (w : World R) :
  describable endpoint = true →
  ∃ d', resourceAwsDmsEndpointSetState endpoint w
        = Return None (mkWorld d' (remote w) (calls w)).
Proof.
  unfold describable, complete, resourceAwsDmsEndpointSetState.
  destruct endpoint as [id ty engine arn cert db extra port server user kms ssl dyn s3].
  simpl. intros H.
  repeat (apply andb_prop in H as [H ?]).
  destruct id, ty, engine as [engine|]; try done. run.
  repeat case_bool_decide; subst; try done;
    try destruct dyn;
    try destruct s3 as [[? ? ? [c|] [dl|] [r|]]|]; try done; run; eauto.
Qed.

(** What SetState has written when it returns. *)
Lemma SetState_writes (endpoint : Endpoint.t) (w w' : World R) a :
  resourceAwsDmsEndpointSetState endpoint w = Return a w' →
  a = None ∧ remote w' = remote w ∧ calls w' = calls w
  ∧ Some (Id (data w')) = Endpoint.EndpointIdentifier endpoint
  ∧ Some (GetString (data w') "endpoint_type")
    = ToLower <$> Endpoint.EndpointType endpoint
  ∧ GetString (data w') "endpoint_arn" = default "" (Endpoint.EndpointArn endpoint)
  ∧ (Endpoint.EngineName endpoint = Some "s3" →
     Some (GetString (data w') "extra_connection_attributes")
     = match Endpoint.S3Settings endpoint with
       | Some settings => serialize settings
       | None => Some ""
       end).
Proof.
  unfold resourceAwsDmsEndpointSetState.
  destruct endpoint as [id ty engine arn cert db extra port server user kms ssl dyn s3].
  simpl. destruct id, ty, engine as [engine|]; run; try done.
  repeat case_bool_decide; subst; try done;
    try destruct dyn;
    try destruct s3 as [s3|]; run;
    try destruct (serialize s3) eqn:Hser; run;
    intros Hret; inversion Hret; subst; simpl; unfold ptrString;
    repeat split; try done; try (intros; simplify_eq);
    repeat first [ rewrite GetString_Set_eq
                 | rewrite GetString_Set_ne by done ];
    done.
Qed.

(** The role and the bucket SetState has written for an s3 endpoint:
    those of the settings object, and the empty string when the
    description carries none (lines 415-417 and 423-425). *)
Lemma SetState_s3_writes (endpoint : Endpoint.t) (w w' : World R) a :
  resourceAwsDmsEndpointSetState endpoint w = Return a w' →
  Endpoint.EngineName endpoint = Some "s3" →
  GetString (data w') "service_access_role"
  = default "" (Endpoint.S3Settings endpoint ≫= S3Settings.ServiceAccessRoleArn)
  ∧ GetString (data w') "bucket_folder"
    = default "" (Endpoint.S3Settings endpoint ≫= S3Settings.BucketFolder)
  ∧ GetString (data w') "bucket_name"
    = default "" (Endpoint.S3Settings endpoint ≫= S3Settings.BucketName).
Proof.
  unfold resourceAwsDmsEndpointSetState.
  destruct endpoint as [id ty engine arn cert db extra port server user kms ssl dyn s3].
  simpl. intros Hret Hengine. subst engine.
  destruct id, ty; run; try done. revert Hret. run.
  destruct s3 as [s3|]; run;
    try destruct (serialize s3) eqn:Hser; run;
    intros Hret; inversion Hret; subst; simpl; unfold ptrString;
    repeat split;
    repeat first [ rewrite GetString_Set_eq
                 | rewrite GetString_Set_ne by done ];
    done.
Qed.

(** Read, when the lookup answers with a description. *)
Lemma Read_found (w w2 : World R) endpoint rest r1 :
  DescribeEndpoints conn (Id (data w)) (remote w) = (inr (endpoint :: rest), r1) →
  resourceAwsDmsEndpointSetState endpoint
    (mkWorld (data w) r1 (calls w ++ [CallDescribeEndpoints (Id (data w))]))
  = Return None w2 →
  resourceAwsDmsEndpointRead conn w =
    let arn := GetString (data w2) "endpoint_arn" in
    let log := calls w2 ++ [CallListTagsForResource arn] in
    match ListTagsForResource conn arn (remote w2) with
    | (inl e, r3) => Return (Some e) (mkWorld (data w2) r3 log)
    | (inr tagList, r3) =>
        Return None (mkWorld (Set_ "tags" (VMap tagList) (data w2)) r3 log)
    end.
Proof.
  intros Hdesc Hset. unfold resourceAwsDmsEndpointRead. run.
  rewrite Hdesc. simpl. rewrite Hset. simpl.
  by destruct (ListTagsForResource conn _ _) as [[e|tagList] r3].
Qed.

(** A successful answer with no description in it is not the absence
    signal: line 248 indexes the empty slice. *)
Lemma Read_empty_answer_panics (w : World R) r1 :
  DescribeEndpoints conn (Id (data w)) (remote w) = (inr [], r1) →
  resourceAwsDmsEndpointRead conn w = Panic.
Proof.
  intros Hdesc. unfold resourceAwsDmsEndpointRead. run. by rewrite Hdesc.
Qed.

(** Read calls the lookup, then at most the tag listing, and nothing
    else. *)
Lemma Read_calls (w w' : World R) a :
  resourceAwsDmsEndpointRead conn w = Return a w' →
  ∃ extra, calls w' = calls w ++ extra ∧ forallb isReadCall extra = true.
Proof.
  unfold resourceAwsDmsEndpointRead. run.
  destruct (DescribeEndpoints conn _ _) as [[err|[|endpoint rest]] r1]; simpl.
  - destruct (hasCode err _); intros Hret; inversion Hret; simpl; eauto.
  - done.
  - destruct (resourceAwsDmsEndpointSetState endpoint _) as [|a2 w2] eqn:Hset;
      [done|].
    apply SetState_writes in Hset as (-> & _ & Hcalls & _). simpl in Hcalls.
    destruct (ListTagsForResource conn _ _) as [[e|tagList] r3];
      intros Hret; inversion Hret; simpl; rewrite Hcalls, <- app_assoc; eauto.
Qed.

(** *** Update *)

Lemma ifChanged_unchanged d key assign st :
  HasChange d key = false → ifChanged d key assign st = st.
Proof. unfold ifChanged. by intros ->. Qed.

(** The s3 branch with a changed settings field: the request goes out
    with the settings the loop has built, and the path jumps over the
    tag block. *)
Lemma Update_s3_settings (w : World R) settings :
  GetString (data w) "engine_name" = "s3" →
  s3SettingsChanged (data w) = true →
  modifyS3Settings (data w) = Some settings →
  ∃ request,
    ModifyEndpointInput.S3Settings request = Some settings
    ∧ resourceAwsDmsEndpointUpdate conn w = updateDone conn (request, true) w.
Proof.
  intros Hengine Hchanged Hsettings. unfold resourceAwsDmsEndpointUpdate. run.
  rewrite Hengine, Hchanged, Hsettings. simpl.
  eexists. split; [|reflexivity]. done.
Qed.

Lemma updateDone_calls (w w' : World R) request a :
  updateDone conn (request, true) w = Return a w' →
  ∃ extra, calls w' = calls w ++ CallModifyEndpoint request :: extra
           ∧ forallb isReadCall extra = true.
Proof.
  unfold updateDone. run.
  destruct (ModifyEndpoint conn request (remote w)) as [[e|] r1]; simpl.
  - intros Hret. inversion Hret. simpl. by exists [].
  - intros Hret. apply Read_calls in Hret as (extra & Hcalls & Hread).
    simpl in Hcalls. exists extra. by rewrite Hcalls, <- app_assoc.
Qed.

(** *** Create *)

Lemma last_fault (e : error) faults (last0 : option error) :
  from_option Some (Some e) (list.last faults)
  = from_option Some last0 (list.last (e :: faults)).
Proof.
  destruct faults as [|e' faults]; [done|].
  change (list.last (e :: e' :: faults)) with (list.last (e' :: faults)).
  destruct (list.last (e' :: faults)) eqn:Hlast; [done|].
  by apply last_None in Hlast.
Qed.

(** One attempt: the call, and the class of its answer. *)
Lemma createAttempt_run request d r log :
  createAttempt conn request (mkWorld d r log) =
    Return
      (match (CreateEndpoint conn request r).1 with
       | Some e => Some (if hasCode e "AccessDeniedFault"
                         then RetryableError e else NonRetryableError e)
       | None => None
       end)
      (mkWorld d (CreateEndpoint conn request r).2
               (log ++ [CallCreateEndpoint request])).
Proof.
  unfold createAttempt. run.
  destruct (CreateEndpoint conn request r) as [[e|] r1]; simpl; [|done].
  by destruct (hasCode e _).
Qed.

(** The retry loop over a run of access-denied answers: one call for
    each, as long as the ceiling allows. *)
Lemma retryLoop_denied request faults d r r' log n last :
  deniedRun conn request faults r r' →
  (length faults ≤ n)%nat →
  retryLoop n (createAttempt conn request) last (mkWorld d r log)
  = retryLoop (n - length faults)%nat (createAttempt conn request)
      (from_option Some last (list.last faults))
      (mkWorld d r' (log ++ replicate (length faults) (CallCreateEndpoint request))).
Proof.
  intros Hrun. revert n last log.
  induction Hrun as [r|e faults r r1 r2 Hanswer Hcode Hrun IH];
    intros n last log Hn; simpl.
  - by rewrite Nat.sub_0_r, app_nil_r.
  - simpl in Hn. destruct n as [|n]; [lia|]. cbn [retryLoop].
    unfold mbind, M_bind. rewrite createAttempt_run, Hanswer. simpl.
    rewrite Hcode. simpl.
    rewrite IH by lia. rewrite <- app_assoc. simpl.
    by rewrite (last_fault e faults last).
Qed.

(** Create is the request, the retry loop over the attempts the five
    minutes allow, and then the identity and Read. *)
Lemma Create_unfold (w : World R) request :
  createRequest (data w) = Some request →
  resourceAwsDmsEndpointCreate conn w =
    match retryLoop (attempts_within conn (5 * Minute))
                    (createAttempt conn request) None w with
    | Panic => Panic
    | Return (Some e) w' => Return (Some e) w'
    | Return None w' =>
        resourceAwsDmsEndpointRead conn
          (mkWorld (SetId (GetString (data w') "endpoint_id") (data w'))
                   (remote w') (calls w'))
    end.
Proof.
  intros Hrequest. unfold resourceAwsDmsEndpointCreate, Retry.
  generalize (attempts_within conn (5 * Minute)). intros budget. run.
  rewrite Hrequest. simpl.
  by destruct (retryLoop budget _ None w) as [|[e|] w'].
Qed.

Lemma Create_panics (w : World R) :
  createRequest (data w) = None → resourceAwsDmsEndpointCreate conn w = Panic.
Proof.
  intros Hrequest. unfold resourceAwsDmsEndpointCreate. run. by rewrite Hrequest.
Qed.

End Running.

(** ** Read *)

(** The absence Read does handle: when the lookup fails with
    [ResourceNotFoundFault], Read clears the identity of the resource
    data and returns no error; it has made the one lookup call and
    nothing else. *)
Theorem read_absent_clears_identity {R} `{tables : CaseTables}
    (conn : Client R) (w : World R)
    (err : error) (r1 : R) :
  DescribeEndpoints conn (Id (data w)) (remote w) = (inl err, r1) →
  hasCode err "ResourceNotFoundFault" = true →
  resourceAwsDmsEndpointRead conn w
  = Return None (mkWorld (SetId "" (data w)) r1
                         (calls w ++ [CallDescribeEndpoints (Id (data w))]))
  ∧ Id (SetId "" (data w)) = "".
Proof.
  intros Hdesc Hcode. split; [|done].
  unfold resourceAwsDmsEndpointRead. run. rewrite Hdesc. simpl.
  by rewrite Hcode.
Qed.

Lemma read_absent_clears_identity_witness :
  resourceAwsDmsEndpointRead Sample.emptyClient (Sample.world Sample.s3Unchanged)
  = Return None (mkWorld (SetId "" Sample.s3Unchanged) []
                         [CallDescribeEndpoints "ep1"])
  ∧ Id (SetId "" Sample.s3Unchanged) = "".
Proof.
  exact (read_absent_clears_identity Sample.emptyClient
           (Sample.world Sample.s3Unchanged)
           (AwsError "ResourceNotFoundFault" "No Endpoints found") []
           eq_refl eq_refl).
Defined.

(** C2.  A lookup that succeeds with zero matches is not taken as
    absence: Read indexes the empty list of descriptions (line 248) and
    panics, where the same lookup failing with [ResourceNotFoundFault]
    clears the identity and returns no error. *)
Theorem read_panics_on_an_empty_answer :
  DescribeEndpoints Sample.emptyAnswerClient "ep1" [] = (inr [], [])
  ∧ resourceAwsDmsEndpointRead Sample.emptyAnswerClient
      (Sample.world Sample.s3Unchanged) = Panic
  ∧ resourceAwsDmsEndpointRead Sample.emptyClient
      (Sample.world Sample.s3Unchanged)
    = Return None (mkWorld (SetId "" Sample.s3Unchanged) []
                           [CallDescribeEndpoints "ep1"]).
Proof. split; [done|]. split; by vm_compute. Qed.

(** C8.  Whatever Read goes on to do after the lookup has answered with a
    description, it leaves the role in its lower-case form: ["SOURCE"]
    as ["source"], ["TARGET"] as ["target"].  And Read does return on
    every description it can read without a nil dereference. *)
Theorem read_normalizes_role {R} `{tables : CaseTables} (conn : Client R) (w : World R)
    (endpoint : Endpoint.t) (rest : list Endpoint.t) (r1 : R) (role : Role) :
  DescribeEndpoints conn (Id (data w)) (remote w) = (inr (endpoint :: rest), r1) →
  Endpoint.EndpointType endpoint = Some (remoteForm role) →
  (∀ a w', resourceAwsDmsEndpointRead conn w = Return a w' →
           GetString (data w') "endpoint_type" = canonicalForm role)
  ∧ (describable endpoint = true →
     ∃ a w', resourceAwsDmsEndpointRead conn w = Return a w').
Proof.
  intros Hdesc Hrole.
  set (w1 := mkWorld (data w) r1 (calls w ++ [CallDescribeEndpoints (Id (data w))])).
  split.
  - intros a w'.
    destruct (resourceAwsDmsEndpointSetState endpoint w1) as [|a2 w2] eqn:Hset.
    { unfold resourceAwsDmsEndpointRead. run. rewrite Hdesc. simpl.
      fold w1. by rewrite Hset. }
    pose proof Hset as Hwrites.
    apply SetState_writes in Hwrites as (-> & _ & _ & _ & Hty & _).
    rewrite Hrole in Hty. simpl in Hty.
    assert (GetString (data w2) "endpoint_type" = canonicalForm role) as Hlower
      by (destruct role; by inversion Hty).
    rewrite (Read_found conn w w2 endpoint rest r1 Hdesc Hset). simpl.
    destruct (ListTagsForResource conn _ _) as [[e|tagList] r3];
      intros Hret; inversion Hret; subst; simpl; [done|].
    by rewrite GetString_Set_ne.
  - intros Hok.
    destruct (SetState_returns endpoint w1 Hok) as [d' Hset].
    rewrite (Read_found conn w _ endpoint rest r1 Hdesc Hset). simpl.
    destruct (ListTagsForResource conn _ _) as [[e|tagList] r3]; eauto.
Qed.

Lemma read_normalizes_role_witness :
  (∀ a w', resourceAwsDmsEndpointRead Sample.okClient
             (Sample.world Sample.s3Unchanged) = Return a w' →
           GetString (data w') "endpoint_type" = "target")
  ∧ (describable (Sample.s3Endpoint "TARGET" (Some Sample.s3Described)) = true →
     ∃ a w', resourceAwsDmsEndpointRead Sample.okClient
               (Sample.world Sample.s3Unchanged) = Return a w').
Proof.
  exact (read_normalizes_role Sample.okClient (Sample.world Sample.s3Unchanged)
           (Sample.s3Endpoint "TARGET" (Some Sample.s3Described)) [] [] target
           eq_refl eq_refl).
Defined.

(** ** Update *)

(** C9.  When no attribute differs between the stored and the desired
    state, Update returns no error and leaves the world as it found it:
    the resource data, the remote system and the log of remote calls,
    to which it has added none. *)
Theorem update_without_changes_is_a_no_op {R} `{tables : CaseTables}
    (conn : Client R) (w : World R) :
  (∀ key, HasChange (data w) key = false) →
  resourceAwsDmsEndpointUpdate conn w = Return None w.
Proof.
  intros Hsame. unfold resourceAwsDmsEndpointUpdate, updateRest, s3SettingsChanged.
  run. rewrite !ifChanged_unchanged by apply Hsame. rewrite !Hsame. simpl.
  repeat case_bool_decide; done.
Qed.

Lemma update_without_changes_is_a_no_op_witness :
  resourceAwsDmsEndpointUpdate Sample.okClient (Sample.world Sample.s3Unchanged)
  = Return None (Sample.world Sample.s3Unchanged).
Proof.
  apply (update_without_changes_is_a_no_op Sample.okClient
           (Sample.world Sample.s3Unchanged)).
  intros key. by apply HasChange_same.
Defined.

(** ** Create *)

(** C5.  Create hands the create call to the retry loop with a ceiling of
    five minutes.  After a run of access-denied faults, each of which has
    been answered by one more call: another fault ends Create at once with
    that fault (no further call, no identity set, no Read); a success lets
    Create go on to set the identity and Read; and when the run has used
    up what the ceiling allows, Create ends with the last fault of the
    run.  So the call is repeated after an answer exactly when that answer
    is an access-denied fault. *)
Theorem create_retries_exactly_on_access_denied {R} `{tables : CaseTables}
    (conn : Client R) (w : World R)
    (request : CreateEndpointInput.t) (faults : list error) (r1 : R) :
  createRequest (data w) = Some request →
  deniedRun conn request faults (remote w) r1 →
  let budget := attempts_within conn (5 * Minute) in
  let log k := calls w ++ replicate k (CallCreateEndpoint request) in
  5 * Minute = 300 * 1000000000
  ∧ (∀ e r2,
       (length faults < budget)%nat →
       CreateEndpoint conn request r1 = (Some e, r2) →
       hasCode e "AccessDeniedFault" = false →
       resourceAwsDmsEndpointCreate conn w
       = Return (Some e) (mkWorld (data w) r2 (log (S (length faults)))))
  ∧ (∀ r2,
       (length faults < budget)%nat →
       CreateEndpoint conn request r1 = (None, r2) →
       resourceAwsDmsEndpointCreate conn w
       = resourceAwsDmsEndpointRead conn
           (mkWorld (SetId (GetString (data w) "endpoint_id") (data w)) r2
                    (log (S (length faults)))))
  ∧ (length faults = budget →
     resourceAwsDmsEndpointCreate conn w
     = Return (Some (default TimeoutError (list.last faults)))
              (mkWorld (data w) r1 (log budget))).
Proof.
  intros Hrequest Hrun budget log. split; [done|].
  assert (∀ n, (length faults ≤ n)%nat →
    retryLoop n (createAttempt conn request) None w
    = retryLoop (n - length faults)%nat (createAttempt conn request)
        (from_option Some None (list.last faults))
        (mkWorld (data w) r1 (log (length faults)))) as Hloop.
  { intros n Hn. destruct w as [d r cs].
    by apply (retryLoop_denied conn request faults d r r1 cs n None). }
  rewrite (Create_unfold conn w request Hrequest). fold budget.
  assert (∀ k, log k ++ [CallCreateEndpoint request] = log (S k)) as Hlog.
  { intros k. unfold log. rewrite <- app_assoc. f_equal.
    change [CallCreateEndpoint request] with (replicate 1 (CallCreateEndpoint request)).
    rewrite <- replicate_add. f_equal. lia. }
  repeat split.
  - intros e r2 Hbudget Hanswer Hcode. rewrite Hloop by lia.
    destruct (budget - length faults)%nat as [|m] eqn:Hm; [lia|].
    cbn [retryLoop]. unfold mbind, M_bind.
    rewrite createAttempt_run, Hanswer. simpl. rewrite Hcode. simpl.
    unfold mret, M_ret. by rewrite Hlog.
  - intros r2 Hbudget Hanswer. rewrite Hloop by lia.
    destruct (budget - length faults)%nat as [|m] eqn:Hm; [lia|].
    cbn [retryLoop]. unfold mbind, M_bind.
    rewrite createAttempt_run, Hanswer. simpl.
    unfold mret, M_ret. by rewrite Hlog.
  - intros Hall. rewrite Hloop by lia. rewrite Hall, Nat.sub_diag. simpl.
    unfold mret, M_ret. by destruct (list.last faults).
Qed.

Lemma create_retries_exactly_on_access_denied_witness :
  resourceAwsDmsEndpointCreate Sample.okClient
    (mkWorld Sample.s3New [Some Sample.denied; Some Sample.denied; Some Sample.conflict] [])
  = Return (Some Sample.conflict)
      (mkWorld Sample.s3New []
         (replicate 3 (CallCreateEndpoint
            (CreateEndpointInput.mk (Some "ep1") (Some "target") (Some "s3") ∅ None
               (Some Sample.s3Described)
               None None None None None None None None None)))).
Proof.
  refine (proj1 (proj2
    (create_retries_exactly_on_access_denied Sample.okClient
       (mkWorld Sample.s3New
          [Some Sample.denied; Some Sample.denied; Some Sample.conflict] [])
       _ [Sample.denied; Sample.denied] [Some Sample.conflict] eq_refl _))
    Sample.conflict [] _ eq_refl eq_refl).
  - apply (deniedRun_cons _ _ _ _ _ [Some Sample.denied; Some Sample.conflict]);
      [reflexivity | reflexivity |].
    apply (deniedRun_cons _ _ _ _ _ [Some Sample.conflict]);
      [reflexivity | reflexivity |].
    apply deniedRun_nil.
  - simpl. lia.
Defined.

(** C7 (as amended).  In the request Create builds for an s3 endpoint,
    each of the three fields that no segment of the attribute string
    binds has its default: compressionType ["GZIP"], csvDelimiter [","],
    and csvRowDelimiter the two characters backslash and [n]. *)
Theorem create_s3_defaults `{tables : CaseTables}
    (d : ResourceData) (request : CreateEndpointInput.t) :
  GetString d "engine_name" = "s3" →
  createRequest d = Some request →
  ∃ settings,
    CreateEndpointInput.S3Settings request = Some settings
    ∧ (unbound compressionType (GetString d "extra_connection_attributes") →
       S3Settings.CompressionType settings = Some "GZIP")
    ∧ (unbound csvDelimiter (GetString d "extra_connection_attributes") →
       S3Settings.CsvDelimiter settings = Some ",")
    ∧ (unbound csvRowDelimiter (GetString d "extra_connection_attributes") →
       S3Settings.CsvRowDelimiter settings
       = Some (String backslash (String "n" EmptyString))).
Proof.
  intros Hengine Hrequest.
  pose proof (createRequest_S3Settings d Hengine) as Hsettings.
  rewrite Hrequest in Hsettings. simpl in Hsettings.
  destruct (parseExtraAttributes _ _) as [settings|] eqn:Hparse;
    simpl in Hsettings; [|done].
  inversion Hsettings as [Hs]. exists settings. split; [done|].
  rewrite parseExtraAttributes_loop in Hparse.
  repeat split.
  - intros Hf. apply (parseElems_keeps _ _ _ compressionType Hparse Hf).
  - intros Hf. apply (parseElems_keeps _ _ _ csvDelimiter Hparse Hf).
  - intros Hf. apply (parseElems_keeps _ _ _ csvRowDelimiter Hparse Hf).
Qed.

Lemma create_s3_defaults_witness :
  (∃ request settings,
     createRequest Sample.s3New = Some request
     ∧ CreateEndpointInput.S3Settings request = Some settings
     ∧ S3Settings.CompressionType settings = Some "GZIP"
     ∧ S3Settings.CsvDelimiter settings = Some ","
     ∧ S3Settings.CsvRowDelimiter settings = Some (String backslash "n"))
  ∧ (∃ request settings,
       createRequest Sample.s3NewWithAttributes = Some request
       ∧ CreateEndpointInput.S3Settings request = Some settings
       ∧ S3Settings.CsvRowDelimiter settings = Some (String backslash "n")).
Proof.
  assert (∀ f v, (∀ elem, elem ∈ Split v semicolon → boundField elem ≠ Some f) →
                 unbound f v) as Hunbound by done.
  split.
  - destruct (createRequest Sample.s3New) as [request|] eqn:Hrequest;
      [|by vm_compute in Hrequest].
    destruct (create_s3_defaults Sample.s3New request eq_refl Hrequest)
      as (settings & Hsettings & Hcompression & Hdelimiter & Hrow).
    exists request, settings. split; [done|]. split; [done|].
    repeat split; [apply Hcompression|apply Hdelimiter|apply Hrow];
      apply Hunbound; intros elem Hin; vm_compute in Hin;
      repeat (apply elem_of_cons in Hin as [-> | Hin]; [by vm_compute|]);
      by apply elem_of_nil in Hin.
  - destruct (createRequest Sample.s3NewWithAttributes) as [request|] eqn:Hrequest;
      [|by vm_compute in Hrequest].
    destruct (create_s3_defaults Sample.s3NewWithAttributes request eq_refl Hrequest)
      as (settings & Hsettings & _ & _ & Hrow).
    exists request, settings. split; [done|]. split; [done|].
    apply Hrow, Hunbound. intros elem Hin. vm_compute in Hin.
    repeat (apply elem_of_cons in Hin as [-> | Hin]; [by vm_compute|]).
    by apply elem_of_nil in Hin.
Defined.

(** C7, as first stated, fails: with no attribute string at all, the row
    delimiter of the request is not the newline character; it is the
    two characters backslash and [n]. *)
Lemma create_s3_row_delimiter_is_not_newline :
  ∃ request settings,
    createRequest Sample.s3New = Some request
    ∧ CreateEndpointInput.S3Settings request = Some settings
    ∧ unbound csvRowDelimiter (GetString Sample.s3New "extra_connection_attributes")
    ∧ S3Settings.CsvRowDelimiter settings ≠ Some (String newline EmptyString)
    ∧ S3Settings.CsvRowDelimiter settings
      = Some (String backslash (String "n" EmptyString)).
Proof.
  eexists _, _. split; [reflexivity|]. split; [reflexivity|].
  split; [|split; [|reflexivity]].
  - intros elem Hin. vm_compute in Hin.
    apply elem_of_cons in Hin as [-> | Hin]; [by vm_compute|].
    by apply elem_of_nil in Hin.
  - by vm_compute.
Qed.

(** ** The round trip of the attribute string *)

(** C6 (as amended).  For an s3 endpoint whose description carries a
    settings object, the attribute string Read leaves is the three pairs
    compressionType, csvDelimiter, csvRowDelimiter, in that order, with
    the three values of the description; when the description carries no
    settings object, Read leaves the empty string there and in the role
    and the two bucket fields.  And whatever the order and the case in
    which an attribute string names its attributes (in keys free of [;]
    and [=]), the settings Create parses from it serialize to one
    canonical string: the values given (each up to its first [=], none
    holding a [;]), and the defaults for the attributes left out. *)
Theorem extra_attributes_are_canonical `{tables : CaseTables} :
  (∀ (R : Type) (conn : Client R) (w : World R) endpoint rest r1,
     DescribeEndpoints conn (Id (data w)) (remote w) = (inr (endpoint :: rest), r1) →
     Endpoint.EngineName endpoint = Some "s3" →
     (∀ a w', resourceAwsDmsEndpointRead conn w = Return a w' →
        match Endpoint.S3Settings endpoint with
        | Some settings =>
            ∃ value, (∀ f, getField f settings = Some (value f))
                     ∧ GetString (data w') "extra_connection_attributes"
                       = canonical value
        | None =>
            GetString (data w') "extra_connection_attributes" = ""
            ∧ GetString (data w') "service_access_role" = ""
            ∧ GetString (data w') "bucket_folder" = ""
            ∧ GetString (data w') "bucket_name" = ""
        end)
     ∧ (describable endpoint = true →
        ∃ a w', resourceAwsDmsEndpointRead conn w = Return a w'))
  ∧ (∀ (d : ResourceData) (spelling value : Field → string) (order : list Field),
       GetString d "engine_name" = "s3" →
       GetString d "extra_connection_attributes" = render spelling value order →
       (∀ f, ToLower (spelling f) = token f) →
       (∀ f, has_byte semicolon (spelling f) = false
             ∧ has_byte equals (spelling f) = false) →
       (∀ f, f ∈ order → has_byte semicolon (value f) = false) →
       ∃ request settings,
         createRequest d = Some request
         ∧ CreateEndpointInput.S3Settings request = Some settings
         ∧ serialize settings
           = Some (canonical (supplied order (λ f, before equals (value f))))).
Proof.
  split.
  - intros R conn w endpoint rest r1 Hdesc Hengine.
    set (w1 := mkWorld (data w) r1 (calls w ++ [CallDescribeEndpoints (Id (data w))])).
    split.
    + intros a w'.
      destruct (resourceAwsDmsEndpointSetState endpoint w1) as [|a2 w2] eqn:Hset.
      { unfold resourceAwsDmsEndpointRead. run. rewrite Hdesc. simpl.
        fold w1. by rewrite Hset. }
      pose proof Hset as Hwrites.
      apply SetState_writes in Hwrites as (-> & _ & _ & _ & _ & _ & Hextra).
      specialize (Hextra Hengine).
      pose proof (SetState_s3_writes endpoint w1 w2 None Hset Hengine)
        as (Hrole & Hfolder & Hname).
      assert (match Endpoint.S3Settings endpoint with
              | Some settings =>
                  ∃ value, (∀ f, getField f settings = Some (value f))
                           ∧ GetString (data w2) "extra_connection_attributes"
                             = canonical value
              | None =>
                  GetString (data w2) "extra_connection_attributes" = ""
                  ∧ GetString (data w2) "service_access_role" = ""
                  ∧ GetString (data w2) "bucket_folder" = ""
                  ∧ GetString (data w2) "bucket_name" = ""
              end) as Hw2.
      { destruct (Endpoint.S3Settings endpoint) as [settings|].
        - symmetry in Hextra. by apply serialize_Some in Hextra.
        - repeat split; [congruence|done..]. }
      rewrite (Read_found conn w w2 endpoint rest r1 Hdesc Hset). simpl.
      destruct (ListTagsForResource conn _ _) as [[e|tagList] r3];
        intros Hret; inversion Hret; subst; simpl; [done|].
      by rewrite !GetString_Set_ne.
    + intros Hok.
      destruct (SetState_returns endpoint w1 Hok) as [d' Hset].
      rewrite (Read_found conn w _ endpoint rest r1 Hdesc Hset). simpl.
      destruct (ListTagsForResource conn _ _) as [[e|tagList] r3]; eauto.
  - intros d spelling value order Hengine Hextra Hspelled Hplain Hvalues.
    pose proof (createRequest_S3Settings d Hengine) as Hsettings.
    rewrite Hextra, (parse_render spelling value Hspelled Hplain) in Hsettings
      by done.
    destruct (createRequest d) as [request|]; [|done].
    simpl in Hsettings. inversion Hsettings as [Hs].
    eexists _, _. split; [done|]. split; [done|].
    apply serialize_canonical. intros f.
    rewrite getField_foldl. unfold supplied.
    case_bool_decide; [done|]. by destruct f.
Qed.

Lemma extra_attributes_are_canonical_witness :
  (∀ a w', resourceAwsDmsEndpointRead Sample.okClient
             (Sample.world Sample.s3Unchanged) = Return a w' →
     ∃ value, (∀ f, getField f Sample.s3Described = Some (value f))
              ∧ GetString (data w') "extra_connection_attributes" = canonical value)
  ∧ (∀ a w', resourceAwsDmsEndpointRead Sample.bareClient
               (Sample.world Sample.s3Unchanged) = Return a w' →
       GetString (data w') "extra_connection_attributes" = ""
       ∧ GetString (data w') "service_access_role" = ""
       ∧ GetString (data w') "bucket_folder" = ""
       ∧ GetString (data w') "bucket_name" = "")
  ∧ ∃ request settings,
      createRequest Sample.s3NewWithAttributes = Some request
      ∧ CreateEndpointInput.S3Settings request = Some settings
      ∧ serialize settings
        = Some "compressionType=NONE;csvDelimiter=|;csvRowDelimiter=\n".
Proof.
  split; [|split].
  - exact (proj1 (proj1 extra_attributes_are_canonical _ Sample.okClient
             (Sample.world Sample.s3Unchanged)
             (Sample.s3Endpoint "TARGET" (Some Sample.s3Described)) [] []
             eq_refl eq_refl)).
  - exact (proj1 (proj1 extra_attributes_are_canonical _ Sample.bareClient
             (Sample.world Sample.s3Unchanged)
             (Sample.s3Endpoint "TARGET" None) [] []
             eq_refl eq_refl)).
  - refine (proj2 extra_attributes_are_canonical Sample.s3NewWithAttributes
              Sample.spellingUpper Sample.valueGiven
              [csvDelimiter; compressionType] eq_refl eq_refl _ _ _).
    + intros f. by destruct f.
    + intros f. by destruct f.
    + intros f _. by destruct f.
Defined.

(** C6, as first stated, fails: for an s3 endpoint that the control plane
    describes without a settings object, Read leaves the empty string,
    which is no string of three pairs. *)
Lemma read_s3_without_settings_leaves_no_pairs :
  match resourceAwsDmsEndpointRead Sample.bareClient
          (Sample.world Sample.s3Unchanged) with
  | Return None w' =>
      GetString (data w') "engine_name" = "s3"
      ∧ GetString (data w') "extra_connection_attributes" = ""
  | _ => False
  end
  ∧ ∀ value, canonical value ≠ "".
Proof. split; [by vm_compute|]. intros value. apply canonical_not_empty. Qed.

(** ** Update of an s3 endpoint whose settings changed *)

Section UpdateS3.
Context {R : Type} `{tables : CaseTables} (conn : Client R).

(** Every path but the jump of line 324 reaches the tag block: when the
    tags changed, the tag synchronization is the first remote call. *)
Lemma Update_syncs_tags (w : World R) :
  HasChange (data w) "tags" = true →
  GetString (data w) "engine_name" ≠ "s3" ∨ s3SettingsChanged (data w) = false →
  ∃ st,
    resourceAwsDmsEndpointUpdate conn w =
      let arn := GetString (data w) "endpoint_arn" in
      let w1 r1 := mkWorld (data w) r1 (calls w ++ [CallSetTags arn]) in
      match SetTags conn arn (data w) (remote w) with
      | (Some e, r1) => Return (Some e) (w1 r1)
      | (None, r1) => updateDone conn st (w1 r1)
      end.
Proof.
  intros Htags Hpath.
  unfold resourceAwsDmsEndpointUpdate, updateRest. run. rewrite Htags.
  assert (∀ st, (λ w0 : World R,
    match (let '(a, r) := SetTags conn (GetString (data w) "endpoint_arn")
                            (data w) (remote w0) in
           Return a (mkWorld (data w0) r
             (calls w0 ++ [CallSetTags (GetString (data w) "endpoint_arn")])))
    with
    | Panic => Panic
    | Return a w' =>
        match a with
        | Some e => λ w1 : World R, Return (Some e) w1
        | None => updateDone conn st
        end w'
    end) w =
    match SetTags conn (GetString (data w) "endpoint_arn") (data w) (remote w) with
    | (Some e, r1) =>
        Return (Some e) (mkWorld (data w) r1
          (calls w ++ [CallSetTags (GetString (data w) "endpoint_arn")]))
    | (None, r1) =>
        updateDone conn st (mkWorld (data w) r1
          (calls w ++ [CallSetTags (GetString (data w) "endpoint_arn")]))
    end) as Hstep.
  { intros st. simpl. by destruct (SetTags conn _ _ _) as [[e|] r1]. }
  repeat case_bool_decide; try (destruct Hpath as [Hne | Hsame]; [done|]);
    try rewrite Hsame; eexists; apply Hstep.
Qed.

(** The jump: with a changed settings field, the calls of Update are the
    modify call and those of Read; the tag synchronization is not among
    them, whether the tags changed or not. *)
Lemma Update_s3_settings_calls (w w' : World R) a :
  GetString (data w) "engine_name" = "s3" →
  s3SettingsChanged (data w) = true →
  resourceAwsDmsEndpointUpdate conn w = Return a w' →
  ∃ request extra,
    calls w' = calls w ++ CallModifyEndpoint request :: extra
    ∧ ModifyEndpointInput.S3Settings request = modifyS3Settings (data w)
    ∧ forallb isReadCall extra = true.
Proof.
  intros Hengine Hchanged Hret.
  destruct (modifyS3Settings (data w)) as [settings|] eqn:Hsettings.
  - destruct (Update_s3_settings conn w settings Hengine Hchanged Hsettings)
      as (request & Hreq & Hupdate).
    rewrite Hupdate in Hret.
    apply updateDone_calls in Hret as (extra & Hcalls & Hread).
    by exists request, extra.
  - unfold resourceAwsDmsEndpointUpdate in Hret. revert Hret. run.
    by rewrite Hengine, Hchanged, Hsettings.
Qed.

(** The settings object of that modify call: the role and the bucket,
    and of the three attribute fields only those a segment binds. *)
Lemma modifyS3Settings_fields d settings :
  modifyS3Settings d = Some settings →
  base settings = (Some (GetString d "service_access_role"),
                   Some (GetString d "bucket_name"),
                   Some (GetString d "bucket_folder"))
  ∧ ∀ f, unbound f (GetString d "extra_connection_attributes") →
         getField f settings = None.
Proof.
  unfold modifyS3Settings. rewrite parseExtraAttributes_loop. intros Hparse.
  split.
  - by rewrite (parseElems_base _ _ _ Hparse).
  - intros f Hf. rewrite (parseElems_keeps _ _ _ f Hparse Hf). by destruct f.
Qed.

End UpdateS3.

(** C1 is right and the code is not.  An s3 endpoint with a new bucket
    folder and a new tag: Update modifies the endpoint and reads it back,
    and never calls the tag synchronization. *)
Theorem update_s3_settings_and_tags_skips_tag_sync :
  HasChange Sample.s3FolderAndTags "tags" = true
  ∧ HasChange Sample.s3FolderAndTags "bucket_folder" = true
  ∧ GetString Sample.s3FolderAndTags "engine_name" = "s3"
  ∧ match resourceAwsDmsEndpointUpdate Sample.okClient
            (Sample.world Sample.s3FolderAndTags) with
    | Return None w' =>
        isSetTags <$> calls w' = [false; false; false]
        ∧ isReadCall <$> calls w' = [false; true; true]
    | _ => False
    end.
Proof.
  split; [by vm_compute|]. split; [by vm_compute|]. split; [by vm_compute|].
  vm_compute. by split.
Qed.

(** C3 is right and the code is not.  An s3 endpoint with a new bucket
    folder, whose attribute string names the compression type only: the
    settings object of the modify request has the role, the bucket, the
    folder and the compression type, and neither delimiter. *)
Theorem update_s3_sends_partial_settings :
  HasChange Sample.s3FolderOneAttribute "bucket_folder" = true
  ∧ GetString Sample.s3FolderOneAttribute "engine_name" = "s3"
  ∧ GetString Sample.s3FolderOneAttribute "extra_connection_attributes"
    = "compressionType=NONE"
  ∧ match resourceAwsDmsEndpointUpdate Sample.okClient
            (Sample.world Sample.s3FolderOneAttribute) with
    | Return None w' =>
        match calls w' with
        | CallModifyEndpoint request :: _ =>
            ModifyEndpointInput.S3Settings request
            = Some (S3Settings.mk (Some "role-a") (Some "bucket") (Some "other")
                                  (Some "NONE") None None)
        | _ => False
        end
    | _ => False
    end.
Proof.
  split; [by vm_compute|]. split; [by vm_compute|]. split; [by vm_compute|].
  vm_compute. reflexivity.
Qed.

(** * Further properties of the operations *)

(** ** Update and its table *)

(** Name the tests and the values, then go through the tests. *)
Ltac split_changes d :=
  repeat match goal with
         | |- context [HasChange d ?k] =>
             let c := fresh "changed" in
             set (c := HasChange d k); clearbody c
         | |- context [GetString d ?k] =>
             let v := fresh "value" in
             set (v := GetString d k); clearbody v
         | |- context [GetInt d ?k] =>
             let v := fresh "value" in
             set (v := GetInt d k); clearbody v
         end;
  repeat match goal with
         | c : bool |- _ => destruct c
         end.

Section UpdateTable.
Context {R : Type} `{tables : CaseTables} (conn : Client R).

Lemma table_dynamodb d :
  GetString d "engine_name" = "dynamodb" →
  restChanges d
    (ifChanged d "service_access_role"
       (ModifyEndpointInput.set_DynamoDbSettings
          (DynamoDbSettings.mk (Some (GetString d "service_access_role"))))
       (commonChanges d))
  = (partialRequest d, anyChanged d (requestKeys "dynamodb")).
Proof.
  intros Hengine.
  unfold restChanges, commonChanges, partialRequest, anyChanged, requestKeys,
    settingsKeys, ifChanged, changedString, changedInt.
  rewrite Hengine. simpl. split_changes d; reflexivity.
Qed.

Lemma table_s3 d :
  GetString d "engine_name" = "s3" →
  s3SettingsChanged d = false →
  restChanges d (commonChanges d)
  = (partialRequest d, anyChanged d (requestKeys "s3")).
Proof.
  intros Hengine Hsettings.
  unfold s3SettingsChanged in Hsettings.
  apply orb_false_elim in Hsettings as [Hsettings Hextra].
  apply orb_false_elim in Hsettings as [Hsettings Hfolder].
  apply orb_false_elim in Hsettings as [Hrole Hname].
  unfold restChanges, commonChanges, partialRequest, anyChanged, requestKeys,
    settingsKeys, ifChanged, changedString, changedInt.
  rewrite Hengine. simpl. rewrite Hrole, Hname, Hfolder, Hextra.
  split_changes d; reflexivity.
Qed.

Lemma table_relational d :
  GetString d "engine_name" ≠ "dynamodb" →
  GetString d "engine_name" ≠ "s3" →
  restChanges d
    (ifChanged d "extra_connection_attributes"
       (ModifyEndpointInput.set_ExtraConnectionAttributes
          (GetString d "extra_connection_attributes"))
       (commonChanges d))
  = (partialRequest d, anyChanged d (requestKeys (GetString d "engine_name"))).
Proof.
  intros Hdyn Hs3.
  unfold restChanges, commonChanges, partialRequest, anyChanged, requestKeys,
    settingsKeys, ifChanged, changedString, changedInt.
  rewrite !(bool_decide_eq_false_2 _ Hdyn), !(bool_decide_eq_false_2 _ Hs3). simpl.
  split_changes d; reflexivity.
Qed.

Lemma table_jump d settings :
  ModifyEndpointInput.set_S3Settings settings (commonChanges d).1
  = s3Request d settings.
Proof.
  unfold commonChanges, s3Request, ifChanged, changedString.
  split_changes d; reflexivity.
Qed.

Lemma updateRest_sync d st :
  updateRest conn d st = syncTagsThen conn d (updateDone conn (restChanges d st)).
Proof. reflexivity. Qed.

(** The chain of [if d.HasChange(...)] blocks, the [switch] and the jump
    compute the table. *)
Lemma Update_plan (w : World R) :
  resourceAwsDmsEndpointUpdate conn w = updatePlan conn (data w) w.
Proof.
  set (d := data w).
  assert (resourceAwsDmsEndpointUpdate conn w =
    (if bool_decide (GetString d "engine_name" = "dynamodb") then
       updateRest conn d
         (ifChanged d "service_access_role"
            (ModifyEndpointInput.set_DynamoDbSettings
               (DynamoDbSettings.mk (Some (GetString d "service_access_role"))))
            (commonChanges d))
     else if bool_decide (GetString d "engine_name" = "s3") then
       if s3SettingsChanged d then
         settings ← deref (modifyS3Settings d);
         updateDone conn
           (ModifyEndpointInput.set_S3Settings settings (commonChanges d).1, true)
       else updateRest conn d (commonChanges d)
     else
       updateRest conn d
         (ifChanged d "extra_connection_attributes"
            (ModifyEndpointInput.set_ExtraConnectionAttributes
               (GetString d "extra_connection_attributes"))
            (commonChanges d))) w) as -> by reflexivity.
  unfold updatePlan, jumps. fold d.
  case_bool_decide as Hdyn.
  - rewrite bool_decide_eq_false_2 by (rewrite Hdyn; done). simpl.
    by rewrite updateRest_sync, table_dynamodb, Hdyn.
  - case_bool_decide as Hs3; simpl.
    + destruct (s3SettingsChanged d) eqn:Hsettings.
      * run. destruct (modifyS3Settings d) as [settings|]; [|done].
        by rewrite table_jump.
      * by rewrite updateRest_sync, table_s3, Hs3.
    + by rewrite updateRest_sync, table_relational.
Qed.

End UpdateTable.



(** ** The calls of Update *)

Section UpdateCalls.
Context {R : Type} `{tables : CaseTables} (conn : Client R).

(** Read starts with the lookup by the identity it finds. *)
Lemma Read_starts_with_lookup (w w' : World R) a :
  resourceAwsDmsEndpointRead conn w = Return a w' →
  ∃ rest, calls w' = calls w ++ CallDescribeEndpoints (Id (data w)) :: rest
          ∧ forallb isReadCall rest = true.
Proof.
  unfold resourceAwsDmsEndpointRead. run.
  destruct (DescribeEndpoints conn _ _) as [[err|[|endpoint rest]] r1]; simpl.
  - destruct (hasCode err _); intros Hret; inversion Hret; simpl; by exists [].
  - done.
  - destruct (resourceAwsDmsEndpointSetState endpoint _) as [|a2 w2] eqn:Hset;
      [done|].
    apply SetState_writes in Hset as (-> & _ & Hcalls & _). simpl in Hcalls.
    destruct (ListTagsForResource conn _ _) as [[e|tagList] r3];
      intros Hret; inversion Hret; simpl; rewrite Hcalls, <- app_assoc; simpl;
      eexists; split; try reflexivity; done.
Qed.

(** The block at [DONE]: no call without a change; else the modify call,
    and the calls of Read when it succeeded.  The resource data change
    only through that Read. *)
Lemma updateDone_shape (w w' : World R) request (hasChanges : bool) a :
  updateDone conn (request, hasChanges) w = Return a w' →
  ∃ modifyCalls readCalls,
    calls w' = calls w ++ modifyCalls ++ readCalls
    ∧ modifyCalls = (if hasChanges then [CallModifyEndpoint request] else [])
    ∧ forallb isReadCall readCalls = true
    ∧ (readCalls = [] → data w' = data w)
    ∧ (hasChanges = false → a = None ∧ w' = w).
Proof.
  unfold updateDone. destruct hasChanges; run.
  - destruct (ModifyEndpoint conn request (remote w)) as [[e|] r1]; simpl.
    + intros Hret. inversion Hret. simpl. exists [CallModifyEndpoint request], [].
      by rewrite app_nil_r.
    + intros Hret. apply Read_starts_with_lookup in Hret as (rest & Hcalls & Hread).
      simpl in Hcalls. eexists _, _. split.
      { rewrite Hcalls, <- app_assoc. reflexivity. }
      repeat split; try done.
  - intros Hret. inversion Hret. exists [], []. by rewrite app_nil_r.
Qed.


(** The calls of Update, in their order: the tag synchronization (on
    every path but the jump), the one modify call with the request of the
    table, the calls of Read. *)
Lemma Update_shape (w w' : World R) a :
  resourceAwsDmsEndpointUpdate conn w = Return a w' →
  let d := data w in
  ∃ tagCalls modifyCalls readCalls,
    calls w' = calls w ++ tagCalls ++ modifyCalls ++ readCalls
    ∧ tagCalls = (if negb (jumps d) && HasChange d "tags"
                  then [CallSetTags (GetString d "endpoint_arn")] else [])
    ∧ (modifyCalls = [] ∨
       ∃ request, modifyCalls = [CallModifyEndpoint request]
         ∧ if jumps d
           then ∃ settings, modifyS3Settings d = Some settings
                            ∧ request = s3Request d settings
           else request = partialRequest d
                ∧ anyChanged d (requestKeys (GetString d "engine_name")) = true)
    ∧ forallb isReadCall readCalls = true
    ∧ (modifyCalls = [] → readCalls = [])
    ∧ (readCalls = [] → data w' = data w)
    ∧ (modifyCalls = [] →
       jumps d = false
       ∧ (anyChanged d (requestKeys (GetString d "engine_name")) = false
          ∨ (HasChange d "tags" = true ∧ a ≠ None))).
Proof.
  rewrite Update_plan. unfold updatePlan. intros Hret. cbv zeta.
  set (d := data w) in *.
  remember (anyChanged d (requestKeys (GetString d "engine_name"))) as flag
    eqn:Hflag.
  destruct (jumps d) eqn:Hjump; cbn [negb andb].
  - revert Hret. run.
    destruct (modifyS3Settings d) as [settings|] eqn:Hsettings; [|done].
    intros Hret.
    apply (updateDone_shape w w' (s3Request d settings) true) in Hret
      as (mods & reads & Hcalls & -> & Hreads & Hdata & _).
    exists [], [CallModifyEndpoint (s3Request d settings)], reads.
    repeat split; try done. right. eauto.
  - unfold syncTagsThen in Hret.
    assert (∀ w1 tagCalls,
      calls w1 = calls w ++ tagCalls → data w1 = data w →
      updateDone conn (partialRequest d, flag) w1 = Return a w' →
      ∃ modifyCalls readCalls,
        calls w' = calls w ++ tagCalls ++ modifyCalls ++ readCalls
        ∧ (modifyCalls = [] ∨
           ∃ request, modifyCalls = [CallModifyEndpoint request]
                      ∧ request = partialRequest d ∧ flag = true)
        ∧ forallb isReadCall readCalls = true
        ∧ (modifyCalls = [] → readCalls = [])
        ∧ (readCalls = [] → data w' = data w)
        ∧ (modifyCalls = [] → flag = false)) as Hdone.
    { intros w1 tagCalls Hlog Hsame Hdone.
      apply updateDone_shape in Hdone
        as (mods & reads & Hcalls & -> & Hreads & Hdata & Hnone).
      exists (if flag then [CallModifyEndpoint (partialRequest d)] else []), reads.
      split; [by rewrite Hcalls, Hlog, <- !app_assoc|].
      destruct flag.
      - repeat split; try done; [right; eauto|]. intros Hr. by rewrite Hdata.
      - destruct (Hnone eq_refl) as [-> ->].
        repeat split; try done; [by left|].
        intros _. apply (f_equal length) in Hcalls.
        rewrite !length_app in Hcalls. simpl in Hcalls.
        destruct reads; [done|]. simpl in Hcalls. lia. }
    destruct (HasChange d "tags") eqn:Htags; revert Hret; run.
    + destruct (SetTags conn _ d (remote w)) as [[e|] r1]; simpl.
      * intros Hret. inversion Hret. simpl.
        exists [CallSetTags (GetString d "endpoint_arn")], [], [].
        repeat split; try done; [by left|]. by right.
      * intros Hret.
        apply (Hdone _ [CallSetTags (GetString d "endpoint_arn")]) in Hret
          as (mods & reads & H1 & H2 & H3 & H4 & H5 & H6); [|done|done].
        exists [CallSetTags (GetString d "endpoint_arn")], mods, reads.
        repeat split; try done. left. by apply H6.
    + intros Hret.
      apply (Hdone _ []) in Hret as (mods & reads & H1 & H2 & H3 & H4 & H5 & H6);
        [|by rewrite app_nil_r|done].
      exists [], mods, reads. repeat split; try done. left. by apply H6.
Qed.

End UpdateCalls.

(** ** What Update sends, and when *)

Section UpdateProperties.
Context {R : Type} `{tables : CaseTables} (conn : Client R).

Lemma jumps_changes d :
  jumps d = true →
  anyChanged d (requestKeys (GetString d "engine_name")) = true.
Proof.
  unfold jumps, s3SettingsChanged, anyChanged, requestKeys, settingsKeys.
  intros [Hengine Hchanged]%andb_prop.
  apply bool_decide_eq_true in Hengine. rewrite Hengine. simpl.
  destruct (HasChange d "service_access_role"), (HasChange d "bucket_name"),
    (HasChange d "bucket_folder"), (HasChange d "extra_connection_attributes");
    try done; by rewrite ?orb_true_r.
Qed.

Lemma anyChanged_watched d engine :
  anyChanged d (watchedKeys engine)
  = anyChanged d (requestKeys engine) || HasChange d "tags".
Proof.
  unfold anyChanged, watchedKeys. rewrite existsb_app. simpl.
  by rewrite orb_false_r.
Qed.

Lemma reads_hold_no_modify (reads : list Call) :
  forallb isReadCall reads = true → List.filter isModifyCall reads = [].
Proof.
  induction reads as [|c reads IH]; simpl; [done|].
  intros [Hc Hreads]%andb_prop. rewrite IH by done. by destruct c.
Qed.

Lemma app_nonempty_ne {A} (l new : list A) : new ≠ [] → l ++ new ≠ l.
Proof.
  intros Hne Heq. apply (f_equal length) in Heq. rewrite length_app in Heq.
  destruct new; [done|]. simpl in Heq. lia.
Qed.

End UpdateProperties.

(** X1.  Every modify request Update issues is the one of the table, and
    Update issues at most one.  On the paths through lines 333-363 the
    request carries the endpoint reference and, of the attributes the
    engine's path tests, those that changed, each with its current value;
    an attribute the path does not test is not sent, changed or not (the
    attribute string of a dynamodb endpoint).  On the s3 path that jumps
    it carries the four common attributes that changed and the settings
    object. *)
Theorem update_sends_the_changed_fields {R} `{tables : CaseTables}
    (conn : Client R) (w w' : World R) a :
  resourceAwsDmsEndpointUpdate conn w = Return a w' →
  ∃ new,
    calls w' = calls w ++ new
    ∧ (length (List.filter isModifyCall new) ≤ 1)%nat
    ∧ ∀ request, CallModifyEndpoint request ∈ new →
        if jumps (data w)
        then ∃ settings, modifyS3Settings (data w) = Some settings
                         ∧ request = s3Request (data w) settings
        else request = partialRequest (data w)
             ∧ (GetString (data w) "engine_name" = "dynamodb" →
                ModifyEndpointInput.ExtraConnectionAttributes request = None).
Proof.
  intros Hret.
  apply Update_shape in Hret
    as (tags & mods & reads & Hcalls & Htags & Hmods & Hreads & _).
  exists (tags ++ mods ++ reads). split; [done|].
  assert (∀ c, c ∈ reads → isModifyCall c = false) as Hno.
  { intros c Hc. rewrite forallb_forall in Hreads.
    apply list_elem_of_In, Hreads in Hc. by destruct c. }
  assert (List.filter isModifyCall tags = []) as Hfilter.
  { rewrite Htags. destruct (negb _ && _); reflexivity. }
  split.
  - rewrite !List.filter_app, Hfilter, (reads_hold_no_modify reads Hreads).
    rewrite app_nil_r. simpl.
    destruct Hmods as [-> | (request & -> & _)]; simpl; lia.
  - intros request Hin.
    apply elem_of_app in Hin as [Hin | Hin].
    { rewrite Htags in Hin. destruct (negb _ && _).
      - apply list_elem_of_singleton in Hin. done.
      - by apply elem_of_nil in Hin. }
    apply elem_of_app in Hin as [Hin | Hin].
    + destruct Hmods as [-> | (request' & -> & Hrequest)];
        [by apply elem_of_nil in Hin|].
      apply list_elem_of_singleton in Hin. inversion Hin; subst.
      destruct (jumps (data w)); [done|]. destruct Hrequest as [-> _].
      split; [done|]. intros Hengine. unfold partialRequest. simpl.
      by rewrite Hengine.
    + by apply Hno in Hin.
Qed.

Lemma update_sends_the_changed_fields_witness :
  ∃ a w',
    resourceAwsDmsEndpointUpdate SampleDynamo.dynamoClient
      (Sample.world SampleDynamo.dynamoRoleAndAttributes) = Return a w'
    ∧ ∃ new,
        calls w' = [] ++ new
        ∧ (length (List.filter isModifyCall new) ≤ 1)%nat
        ∧ ∀ request, CallModifyEndpoint request ∈ new →
            request = ModifyEndpointInput.mk (Some "arn:aws:dms:endpoint:DY1")
                        None None None None
                        (Some (DynamoDbSettings.mk (Some "role-b")))
                        None None None None None None None
            ∧ ("dynamodb" = "dynamodb" →
               ModifyEndpointInput.ExtraConnectionAttributes request = None).
Proof.
  eexists _, _. split; [vm_compute; reflexivity|].
  refine (update_sends_the_changed_fields SampleDynamo.dynamoClient
            (Sample.world SampleDynamo.dynamoRoleAndAttributes) _ _ _).
  vm_compute; reflexivity.
Defined.

(** X2.  Update makes no remote call and returns [nil] exactly when none of
    the attributes it watches for the engine has changed; a change of any
    other attribute (the key reference, the identifier, for dynamodb the
    bucket) goes unnoticed. *)
Theorem update_is_silent_iff_nothing_watched_changed {R} `{tables : CaseTables}
    (conn : Client R)
    (w : World R) :
  resourceAwsDmsEndpointUpdate conn w = Return None w
  ↔ anyChanged (data w) (watchedKeys (GetString (data w) "engine_name")) = false.
Proof.
  rewrite anyChanged_watched. split.
  - intros Hret. apply Update_shape in Hret
      as (tags & mods & reads & Hcalls & Htags & Hmods & Hreads & Hnone & _ & Hwhy).
    symmetry in Hcalls.
    destruct tags as [|c tags]; [|by apply app_nonempty_ne in Hcalls].
    destruct mods as [|c mods]; [|by apply app_nonempty_ne in Hcalls].
    destruct (Hwhy eq_refl) as [Hjump [Hany | [_ Herr]]]; [|done].
    rewrite Hjump in Htags. simpl in Htags. rewrite Hany.
    by destruct (HasChange (data w) "tags").
  - intros [Hany Htags]%orb_false_elim.
    rewrite Update_plan. unfold updatePlan, syncTagsThen.
    destruct (jumps (data w)) eqn:Hjump.
    { apply jumps_changes in Hjump. congruence. }
    by rewrite Htags, Hany.
Qed.

(** X3.  A change of tags alone is one tag synchronization and nothing else:
    Update returns its answer, with no modify call and no Read, so the
    resource data stay as they are. *)
Theorem update_of_tags_alone_only_synchronizes {R} `{tables : CaseTables}
    (conn : Client R) (w : World R) :
  HasChange (data w) "tags" = true →
  anyChanged (data w) (requestKeys (GetString (data w) "engine_name")) = false →
  let arn := GetString (data w) "endpoint_arn" in
  resourceAwsDmsEndpointUpdate conn w
  = Return (SetTags conn arn (data w) (remote w)).1
           (mkWorld (data w) (SetTags conn arn (data w) (remote w)).2
                    (calls w ++ [CallSetTags arn])).
Proof.
  intros Htags Hany. rewrite Update_plan. unfold updatePlan, syncTagsThen.
  destruct (jumps (data w)) eqn:Hjump.
  { apply jumps_changes in Hjump. congruence. }
  rewrite Htags, Hany. run.
  by destruct (SetTags conn _ _ _) as [[e|] r1].
Qed.

Lemma update_of_tags_alone_only_synchronizes_witness :
  resourceAwsDmsEndpointUpdate SampleMysql.mysqlClient
    (Sample.world SampleMysql.mysqlTags)
  = Return None
      (mkWorld SampleMysql.mysqlTags [] [CallSetTags "arn:aws:dms:endpoint:DB1"]).
Proof.
  exact (update_of_tags_alone_only_synchronizes SampleMysql.mysqlClient
           (Sample.world SampleMysql.mysqlTags) eq_refl eq_refl).
Defined.

(** X4.  When the tag synchronization fails, Update returns its error at
    once: whatever else has changed, no modify call is made. *)
Theorem update_stops_when_tags_fail {R} `{tables : CaseTables}
    (conn : Client R) (w : World R)
    (e : error) (r1 : R) :
  jumps (data w) = false →
  HasChange (data w) "tags" = true →
  SetTags conn (GetString (data w) "endpoint_arn") (data w) (remote w) = (Some e, r1) →
  resourceAwsDmsEndpointUpdate conn w
  = Return (Some e)
      (mkWorld (data w) r1
               (calls w ++ [CallSetTags (GetString (data w) "endpoint_arn")])).
Proof.
  intros Hjump Htags Hanswer. rewrite Update_plan. unfold updatePlan, syncTagsThen.
  rewrite Hjump, Htags. run. by rewrite Hanswer.
Qed.

Lemma update_stops_when_tags_fail_witness :
  resourceAwsDmsEndpointUpdate SampleMysql.failingTagsClient
    (Sample.world SampleMysql.mysqlPortAndTags)
  = Return (Some SampleMysql.tagFailure)
      (mkWorld SampleMysql.mysqlPortAndTags []
               [CallSetTags "arn:aws:dms:endpoint:DB1"]).
Proof.
  exact (update_stops_when_tags_fail SampleMysql.failingTagsClient
           (Sample.world SampleMysql.mysqlPortAndTags) SampleMysql.tagFailure []
           eq_refl eq_refl eq_refl).
Defined.

(** X5.  When the modify call fails after the tags have been synchronized,
    Update returns its error without a Read: the tags stay synchronized
    on the control plane, and the resource data are not refreshed. *)
Theorem update_keeps_tags_when_modify_fails {R} `{tables : CaseTables}
    (conn : Client R) (w : World R)
    (e : error) (r1 r2 : R) :
  jumps (data w) = false →
  HasChange (data w) "tags" = true →
  anyChanged (data w) (requestKeys (GetString (data w) "engine_name")) = true →
  SetTags conn (GetString (data w) "endpoint_arn") (data w) (remote w) = (None, r1) →
  ModifyEndpoint conn (partialRequest (data w)) r1 = (Some e, r2) →
  resourceAwsDmsEndpointUpdate conn w
  = Return (Some e)
      (mkWorld (data w) r2
               (calls w ++ [CallSetTags (GetString (data w) "endpoint_arn");
                            CallModifyEndpoint (partialRequest (data w))])).
Proof.
  intros Hjump Htags Hany Hsync Hmodify.
  rewrite Update_plan. unfold updatePlan, syncTagsThen, updateDone.
  rewrite Hjump, Htags, Hany. run. rewrite Hsync. simpl. rewrite Hmodify. simpl.
  by rewrite <- app_assoc.
Qed.

Lemma update_keeps_tags_when_modify_fails_witness :
  resourceAwsDmsEndpointUpdate SampleMysql.failingModifyClient
    (Sample.world SampleMysql.mysqlPortAndTags)
  = Return (Some SampleMysql.tagFailure)
      (mkWorld SampleMysql.mysqlPortAndTags []
         [CallSetTags "arn:aws:dms:endpoint:DB1";
          CallModifyEndpoint (partialRequest SampleMysql.mysqlPortAndTags)]).
Proof.
  exact (update_keeps_tags_when_modify_fails SampleMysql.failingModifyClient
           (Sample.world SampleMysql.mysqlPortAndTags) SampleMysql.tagFailure [] []
           eq_refl eq_refl eq_refl eq_refl eq_refl).
Defined.



(** ** The request of Create *)

(** X7.  The settings of a create request follow the engine alone: a dynamodb
    request has the dynamodb settings with the role and nothing else, an
    s3 request has the s3 settings and nothing else, and the request of
    any other engine has the four connection fields and neither settings
    object.  For every engine but s3 the request is always built. *)
Theorem create_request_has_one_variant `{tables : CaseTables} (d : ResourceData) :
  let engine := GetString d "engine_name" in
  (engine ≠ "s3" → is_Some (createRequest d))
  ∧ ∀ request, createRequest d = Some request →
      CreateEndpointInput.EndpointIdentifier request = Some (GetString d "endpoint_id")
      ∧ CreateEndpointInput.EndpointType request = Some (GetString d "endpoint_type")
      ∧ CreateEndpointInput.EngineName request = Some engine
      ∧ CreateEndpointInput.Tags request = GetMap d "tags"
      ∧ CreateEndpointInput.CertificateArn request = whenSet d "certificate_arn"
      ∧ (engine = "dynamodb" →
         CreateEndpointInput.DynamoDbSettings request
         = Some (DynamoDbSettings.mk (Some (GetString d "service_access_role")))
         ∧ CreateEndpointInput.S3Settings request = None
         ∧ noConnection request)
      ∧ (engine = "s3" →
         CreateEndpointInput.DynamoDbSettings request = None
         ∧ is_Some (CreateEndpointInput.S3Settings request)
         ∧ noConnection request)
      ∧ (engine ≠ "dynamodb" → engine ≠ "s3" →
         CreateEndpointInput.DynamoDbSettings request = None
         ∧ CreateEndpointInput.S3Settings request = None
         ∧ CreateEndpointInput.Password request = Some (GetString d "password")
         ∧ CreateEndpointInput.Port request = Some (GetInt d "port")
         ∧ CreateEndpointInput.ServerName request = Some (GetString d "server_name")
         ∧ CreateEndpointInput.Username request = Some (GetString d "username")
         ∧ CreateEndpointInput.DatabaseName request = whenSet d "database_name"
         ∧ CreateEndpointInput.ExtraConnectionAttributes request
           = whenSet d "extra_connection_attributes"
         ∧ CreateEndpointInput.KmsKeyId request = whenSet d "kms_key_arn"
         ∧ CreateEndpointInput.SslMode request = whenSet d "ssl_mode").
Proof.
  intros engine. unfold createRequest, whenSet, noConnection, GetOk. fold engine.
  simpl. split.
  - intros Hs3. repeat case_bool_decide; try done; simpl; repeat case_match; eauto.
  - intros request.
    destruct (bool_decide (engine = "dynamodb")) eqn:Hdyn;
      [|destruct (bool_decide (engine = "s3")) eqn:Hs3]; simpl.
    + apply bool_decide_eq_true in Hdyn.
      destruct (bool_decide (Get d "certificate_arn" ≠ _));
        intros Hrequest; inversion Hrequest; simpl;
        repeat split; try done; intros; congruence.
    + apply bool_decide_eq_true in Hs3. apply bool_decide_eq_false in Hdyn.
      destruct (bool_decide (Get d "extra_connection_attributes" ≠ _));
        [destruct (parseExtraAttributes _ _) as [settings|]; simpl; [|done]|];
        destruct (bool_decide (Get d "certificate_arn" ≠ _));
        intros Hrequest; inversion Hrequest; simpl;
        repeat split; try done; eauto; intros; congruence.
    + apply bool_decide_eq_false in Hs3. apply bool_decide_eq_false in Hdyn.
      destruct (bool_decide (Get d "database_name" ≠ _)),
        (bool_decide (Get d "extra_connection_attributes" ≠ _)),
        (bool_decide (Get d "kms_key_arn" ≠ _)),
        (bool_decide (Get d "ssl_mode" ≠ _)),
        (bool_decide (Get d "certificate_arn" ≠ _));
        intros Hrequest; inversion Hrequest; simpl;
        repeat split; try done; intros; congruence.
Qed.

(** ** The calls of Create *)

Section CreateCalls.
Context {R : Type} `{tables : CaseTables} (conn : Client R).

(** The retry loop, run by run: a run of access-denied answers, and then
    the ceiling, another fault, or a success. *)
Lemma retryLoop_run n request last (w w' : World R) a :
  retryLoop n (createAttempt conn request) last w = Return a w' →
  let log k := calls w ++ replicate k (CallCreateEndpoint request) in
  ∃ faults r1,
    deniedRun conn request faults (remote w) r1
    ∧ (length faults ≤ n)%nat
    ∧ ((length faults = n
        ∧ a = Some (default TimeoutError (from_option Some last (list.last faults)))
        ∧ w' = mkWorld (data w) r1 (log n))
       ∨ (∃ e r2,
            (length faults < n)%nat
            ∧ CreateEndpoint conn request r1 = (Some e, r2)
            ∧ hasCode e "AccessDeniedFault" = false
            ∧ a = Some e
            ∧ w' = mkWorld (data w) r2 (log (S (length faults))))
       ∨ (∃ r2,
            (length faults < n)%nat
            ∧ CreateEndpoint conn request r1 = (None, r2)
            ∧ a = None
            ∧ w' = mkWorld (data w) r2 (log (S (length faults))))).
Proof.
  revert last w a w'. induction n as [|n IH]; intros last [d r cs] a w'; simpl.
  - unfold mret, M_ret. intros Hret. inversion Hret.
    exists [], r. split; [constructor|]. split; [done|]. left.
    by rewrite app_nil_r.
  - unfold mbind, M_bind. rewrite createAttempt_run.
    destruct (CreateEndpoint conn request r) as [[e|] r1] eqn:Hanswer; simpl.
    + destruct (hasCode e "AccessDeniedFault") eqn:Hcode; simpl.
      * intros Hret.
        apply IH in Hret as (faults & r2 & Hrun & Hlen & Hcases). simpl in *.
        exists (e :: faults), r2.
        split; [by econstructor|]. split; [simpl; lia|].
        rewrite <- (last_fault e faults last).
        destruct Hcases as [(Hn & -> & ->) | [(e' & r3 & Hn & Hc & Hf & -> & ->)
                                             | (r3 & Hn & Hc & -> & ->)]].
        -- left. simpl. rewrite <- app_assoc, Hn. done.
        -- right. left. exists e', r3. rewrite <- app_assoc.
           repeat split; try done; simpl; lia.
        -- right. right. exists r3. rewrite <- app_assoc.
           repeat split; try done; simpl; lia.
      * unfold mret, M_ret. intros Hret. inversion Hret.
        exists [], r. split; [constructor|]. split; [simpl; lia|].
        right. left. exists e, r1. simpl. repeat split; try done; simpl; lia.
    + unfold mret, M_ret. intros Hret. inversion Hret.
      exists [], r. split; [constructor|]. split; [simpl; lia|].
      right. right. exists r1. simpl. repeat split; try done; simpl; lia.
Qed.

End CreateCalls.

(** X8.  Create sends one request, the one it has built, once for each
    access-denied answer and once more, as long as the five minutes
    allow.  It ends at the ceiling with the last fault, or at the first
    other fault with that fault, and has then written nothing and run no
    Read; or, at the first answer that is a success, it sets the identity
    to the configured identifier and ends in the Read that follows. *)
Theorem create_calls_then_reads_back {R} `{tables : CaseTables}
    (conn : Client R) (w w' : World R) a :
  resourceAwsDmsEndpointCreate conn w = Return a w' →
  let budget := attempts_within conn (5 * Minute) in
  ∃ request faults r1,
    let log k := calls w ++ replicate k (CallCreateEndpoint request) in
    createRequest (data w) = Some request
    ∧ deniedRun conn request faults (remote w) r1
    ∧ (length faults ≤ budget)%nat
    ∧ ((length faults = budget
        ∧ a = Some (default TimeoutError (list.last faults))
        ∧ w' = mkWorld (data w) r1 (log budget))
       ∨ (∃ e r2,
            (length faults < budget)%nat
            ∧ CreateEndpoint conn request r1 = (Some e, r2)
            ∧ hasCode e "AccessDeniedFault" = false
            ∧ a = Some e
            ∧ w' = mkWorld (data w) r2 (log (S (length faults))))
       ∨ (∃ r2,
            (length faults < budget)%nat
            ∧ CreateEndpoint conn request r1 = (None, r2)
            ∧ resourceAwsDmsEndpointRead conn
                (mkWorld (SetId (GetString (data w) "endpoint_id") (data w)) r2
                         (log (S (length faults))))
              = Return a w')).
Proof.
  intros Hret budget.
  destruct (createRequest (data w)) as [request|] eqn:Hrequest;
    [|by rewrite Create_panics in Hret].
  rewrite (Create_unfold conn w request Hrequest) in Hret. fold budget in Hret.
  destruct (retryLoop _ _ None w) as [|a1 w1] eqn:Hloop; [done|].
  apply retryLoop_run in Hloop as (faults & r1 & Hrun & Hlen & Hcases).
  exists request, faults, r1. cbv zeta.
  split; [done|]. split; [done|]. split; [done|].
  destruct Hcases as [(Hn & -> & ->) | [(e' & r3 & Hn & Hc & Hf & -> & ->)
                                       | (r3 & Hn & Hc & -> & ->)]].
  - left. inversion Hret; subst. repeat split; try done.
    by destruct (list.last faults).
  - right. left. inversion Hret; subst. exists e', r3. done.
  - right. right. exists r3. done.
Qed.

Lemma create_calls_then_reads_back_witness :
  ∃ a w',
    resourceAwsDmsEndpointCreate Sample.okClient
      (mkWorld Sample.s3New [Some Sample.denied] []) = Return a w'
    ∧ ∃ request faults r1,
        let log k := [] ++ replicate k (CallCreateEndpoint request) in
        createRequest Sample.s3New = Some request
        ∧ deniedRun Sample.okClient request faults [Some Sample.denied] r1
        ∧ (length faults ≤ 3)%nat
        ∧ ((length faults = 3%nat
            ∧ a = Some (default TimeoutError (list.last faults))
            ∧ w' = mkWorld Sample.s3New r1 (log 3%nat))
           ∨ (∃ e r2,
                (length faults < 3)%nat
                ∧ CreateEndpoint Sample.okClient request r1 = (Some e, r2)
                ∧ hasCode e "AccessDeniedFault" = false
                ∧ a = Some e
                ∧ w' = mkWorld Sample.s3New r2 (log (S (length faults))))
           ∨ (∃ r2,
                (length faults < 3)%nat
                ∧ CreateEndpoint Sample.okClient request r1 = (None, r2)
                ∧ resourceAwsDmsEndpointRead Sample.okClient
                    (mkWorld (SetId "ep1" Sample.s3New) r2
                             (log (S (length faults))))
                  = Return a w')).
Proof.
  eexists _, _. split; [vm_compute; reflexivity|].
  refine (create_calls_then_reads_back Sample.okClient
            (mkWorld Sample.s3New [Some Sample.denied] []) _ _ _).
  vm_compute; reflexivity.
Defined.

(** ** What Read writes *)

Ltac split_not_elem H :=
  repeat match type of H with
         | _ ∉ _ :: _ => let Hne := fresh "Hne" in
                         apply not_elem_of_cons in H as [Hne H]
         end.

Section ReadWrites.
Context {R : Type} `{tables : CaseTables} (conn : Client R).

Lemma Get_SetId d id key : Get (SetId id d) key = Get d key.
Proof. done. Qed.

(** SetState leaves the stored state alone, and of the current
    attributes all but those of the engine's variant. *)
Lemma SetState_frame (endpoint : Endpoint.t) (w w' : World R) a engine :
  resourceAwsDmsEndpointSetState endpoint w = Return a w' →
  Endpoint.EngineName endpoint = Some engine →
  state (data w') = state (data w)
  ∧ ∀ key, key ∉ writtenKeys engine → Get (data w') key = Get (data w) key.
Proof.
  unfold resourceAwsDmsEndpointSetState, writtenKeys.
  destruct endpoint as [id ty engine' arn cert db extra port server user kms ssl dyn s3].
  simpl. destruct id, ty, engine' as [engine'|]; run; try done.
  intros Hret Heq. inversion Heq; subst engine'. revert Hret.
  repeat case_bool_decide; subst; try done;
    try destruct dyn;
    try destruct s3 as [s3|]; run;
    try destruct (serialize s3) eqn:Hser; run;
    intros Hret; inversion Hret; subst; simpl; (split; [done|]);
    intros key Hkey; simpl in Hkey; split_not_elem Hkey;
    repeat (rewrite Get_Set_ne by congruence); done.
Qed.

(** Read on a description: SetState, then the tag listing for the
    reference the description gives. *)
Lemma Read_described (w w' : World R) a endpoint rest r1 :
  DescribeEndpoints conn (Id (data w)) (remote w) = (inr (endpoint :: rest), r1) →
  resourceAwsDmsEndpointRead conn w = Return a w' →
  let arn := default "" (Endpoint.EndpointArn endpoint) in
  ∃ w2,
    resourceAwsDmsEndpointSetState endpoint
      (mkWorld (data w) r1 (calls w ++ [CallDescribeEndpoints (Id (data w))]))
    = Return None w2
    ∧ calls w' = calls w ++ [CallDescribeEndpoints (Id (data w));
                             CallListTagsForResource arn]
    ∧ remote w' = (ListTagsForResource conn arn r1).2
    ∧ match (ListTagsForResource conn arn r1).1 with
      | inl e => a = Some e ∧ data w' = data w2
      | inr tagList => a = None ∧ data w' = Set_ "tags" (VMap tagList) (data w2)
      end.
Proof.
  intros Hdesc Hret arn.
  destruct (resourceAwsDmsEndpointSetState endpoint
              (mkWorld (data w) r1 (calls w ++ [CallDescribeEndpoints (Id (data w))])))
    as [|a2 w2] eqn:Hset.
  { revert Hret. unfold resourceAwsDmsEndpointRead. run. rewrite Hdesc. simpl.
    by rewrite Hset. }
  pose proof Hset as Hwrites.
  apply SetState_writes in Hwrites as (-> & Hremote & Hcalls & _ & _ & Harn & _).
  simpl in Hremote, Hcalls.
  rewrite (Read_found conn w w2 endpoint rest r1 Hdesc Hset) in Hret.
  simpl in Hret. rewrite Harn, Hremote, Hcalls in Hret. fold arn in Hret.
  exists w2. split; [done|].
  destruct (ListTagsForResource conn arn r1) as [[e|tagList] r3];
    inversion Hret; subst; simpl; rewrite <- app_assoc; done.
Qed.

End ReadWrites.

(** X9.  Read never touches the stored state nor the password, whatever the
    control plane answers: the secret is not read back. *)
Theorem read_keeps_password_and_stored_state {R} `{tables : CaseTables}
    (conn : Client R)
    (w w' : World R) a :
  resourceAwsDmsEndpointRead conn w = Return a w' →
  state (data w') = state (data w)
  ∧ Get (data w') "password" = Get (data w) "password".
Proof.
  intros Hret.
  destruct (DescribeEndpoints conn (Id (data w)) (remote w))
    as [[err|[|endpoint rest]] r1] eqn:Hdesc.
  - revert Hret. unfold resourceAwsDmsEndpointRead. run. rewrite Hdesc. simpl.
    destruct (hasCode err _); intros Hret; by inversion Hret.
  - by rewrite (Read_empty_answer_panics conn w r1 Hdesc) in Hret.
  - destruct (Read_described conn w w' a endpoint rest r1 Hdesc Hret)
      as (w2 & Hset & _ & _ & Htags).
    pose proof Hset as Hw. apply SetState_writes in Hw as (_ & _ & _ & Hid & _).
    destruct (Endpoint.EngineName endpoint) as [engine|] eqn:Hengine.
    + destruct (SetState_frame endpoint _ w2 None engine Hset Hengine)
        as [Hstate Hframe]. simpl in Hstate, Hframe.
      assert (Get (data w2) "password" = Get (data w) "password") as Hpassword.
      { apply Hframe. unfold writtenKeys.
        repeat case_bool_decide; intros Hin; simpl in Hin;
          repeat (apply elem_of_cons in Hin as [Hin | Hin]; [done|]);
          by apply elem_of_nil in Hin. }
      destruct (ListTagsForResource conn _ r1).1; destruct Htags as [_ ->];
        [done|]. split; [done|]. by rewrite Get_Set_ne.
    + revert Hset. unfold resourceAwsDmsEndpointSetState.
      destruct (Endpoint.EndpointIdentifier endpoint),
        (Endpoint.EndpointType endpoint); run; try done.
      by rewrite Hengine.
Qed.

Lemma read_keeps_password_and_stored_state_witness :
  ∃ a w',
    resourceAwsDmsEndpointRead SampleMysql.mysqlClient
      (Sample.world SampleMysql.mysqlPortAndTags) = Return a w'
    ∧ state (data w') = SampleMysql.mysqlStored
    ∧ Get (data w') "password" = VString "secret".
Proof.
  eexists _, _. split; [vm_compute; reflexivity|].
  refine (read_keeps_password_and_stored_state SampleMysql.mysqlClient
            (Sample.world SampleMysql.mysqlPortAndTags) _ _ _).
  vm_compute; reflexivity.
Defined.

(** X10.  Of the current attributes, a Read that finds the endpoint writes the
    tags and the attributes of the engine's variant, and no other: the
    choice follows the engine name of the description, not the settings
    objects it carries. *)
Theorem read_writes_only_the_variant {R} `{tables : CaseTables}
    (conn : Client R) (w w' : World R) a
    (endpoint : Endpoint.t) (rest : list Endpoint.t) (r1 : R) (engine : string) :
  DescribeEndpoints conn (Id (data w)) (remote w) = (inr (endpoint :: rest), r1) →
  Endpoint.EngineName endpoint = Some engine →
  resourceAwsDmsEndpointRead conn w = Return a w' →
  ∀ key, key ∉ writtenKeys engine → key ≠ "tags" →
         Get (data w') key = Get (data w) key.
Proof.
  intros Hdesc Hengine Hret key Hkey Htags.
  destruct (Read_described conn w w' a endpoint rest r1 Hdesc Hret)
    as (w2 & Hset & _ & _ & Hdata).
  destruct (SetState_frame endpoint _ w2 None engine Hset Hengine) as [_ Hframe].
  simpl in Hframe.
  destruct (ListTagsForResource conn _ r1).1; destruct Hdata as [_ ->].
  - by apply Hframe.
  - rewrite Get_Set_ne by done. by apply Hframe.
Qed.

Lemma read_writes_only_the_variant_witness :
  ∃ a w',
    resourceAwsDmsEndpointRead Sample.okClient
      (Sample.world SampleMysql.mysqlPortAndTags) = Return a w'
    ∧ ∀ key, key ∉ writtenKeys "s3" → key ≠ "tags" →
             Get (data w') key = Get SampleMysql.mysqlPortAndTags key.
Proof.
  eexists _, _. split; [vm_compute; reflexivity|].
  refine (read_writes_only_the_variant Sample.okClient
            (Sample.world SampleMysql.mysqlPortAndTags) _ _
            (Sample.s3Endpoint "TARGET" (Some Sample.s3Described)) [] [] "s3"
            eq_refl eq_refl _).
  vm_compute; reflexivity.
Defined.

Section ReadResults.
Context {R : Type} `{tables : CaseTables} (conn : Client R).

(** After SetState the identity, the identifier attribute and the engine
    are those of the description. *)
Lemma SetState_identity (endpoint : Endpoint.t) (w w' : World R) a :
  resourceAwsDmsEndpointSetState endpoint w = Return a w' →
  GetString (data w') "endpoint_id" = Id (data w')
  ∧ Some (GetString (data w') "engine_name") = Endpoint.EngineName endpoint
  ∧ Get (data w') "tags" = Get (data w) "tags".
Proof.
  unfold resourceAwsDmsEndpointSetState.
  destruct endpoint as [id ty engine arn cert db extra port server user kms ssl dyn s3].
  simpl. destruct id, ty, engine as [engine|]; run; try done.
  repeat case_bool_decide; subst; try done;
    try destruct dyn;
    try destruct s3 as [s3|]; run;
    try destruct (serialize s3) eqn:Hser; run;
    intros Hret; inversion Hret; subst; simpl; unfold ptrString;
    repeat split;
    repeat first [ rewrite GetString_Set_eq
                 | rewrite GetString_Set_ne by done
                 | rewrite Get_Set_ne by done ];
    done.
Qed.

End ReadResults.

(** X11.  A failure of the tag listing is a failure of Read: the error is
    returned and the tags keep the value they had.  What SetState has
    written by then stays written: the identity is already the one of the
    description. *)
Theorem read_fails_when_the_tag_listing_fails {R} `{tables : CaseTables}
    (conn : Client R) (w : World R)
    (endpoint : Endpoint.t) (rest : list Endpoint.t) (r1 r3 : R) (e : error) :
  DescribeEndpoints conn (Id (data w)) (remote w) = (inr (endpoint :: rest), r1) →
  describable endpoint = true →
  ListTagsForResource conn (default "" (Endpoint.EndpointArn endpoint)) r1
  = (inl e, r3) →
  ∃ d',
    resourceAwsDmsEndpointRead conn w
    = Return (Some e)
        (mkWorld d' r3
           (calls w ++ [CallDescribeEndpoints (Id (data w));
                        CallListTagsForResource
                          (default "" (Endpoint.EndpointArn endpoint))]))
    ∧ Some (Id d') = Endpoint.EndpointIdentifier endpoint
    ∧ Get d' "tags" = Get (data w) "tags".
Proof.
  intros Hdesc Hok Htags.
  destruct (SetState_returns endpoint
              (mkWorld (data w) r1 (calls w ++ [CallDescribeEndpoints (Id (data w))]))
              Hok) as [d' Hset].
  pose proof Hset as Hw. apply SetState_writes in Hw as (_ & _ & _ & Hid & _ & Harn & _).
  pose proof Hset as Hi. apply SetState_identity in Hi as (_ & _ & Hkeep).
  simpl in Hid, Harn, Hkeep.
  exists d'. split; [|done].
  rewrite (Read_found conn w _ endpoint rest r1 Hdesc Hset). simpl.
  rewrite Harn, Htags. by rewrite <- app_assoc.
Qed.

Lemma read_fails_when_the_tag_listing_fails_witness :
  ∃ d',
    resourceAwsDmsEndpointRead SampleMysql.failingTagsClient
      (Sample.world SampleMysql.mysqlTags)
    = Return (Some SampleMysql.tagFailure)
        (mkWorld d' []
           [CallDescribeEndpoints "db1";
            CallListTagsForResource "arn:aws:dms:endpoint:DB1"])
    ∧ Some (Id d') = Some "db1"
    ∧ Get d' "tags" = VMap {["team" := "data"]}.
Proof.
  exact (read_fails_when_the_tag_listing_fails SampleMysql.failingTagsClient
           (Sample.world SampleMysql.mysqlTags) SampleMysql.mysqlEndpoint [] [] []
           SampleMysql.tagFailure eq_refl eq_refl eq_refl).
Defined.

(** X12.  A Read that succeeds is keyed by the identity alone (so it serves
    import): it looks the endpoint up by [d.Id()], lists the tags of the
    reference the description gives, and leaves the identity and the
    identifier attribute equal to the identifier of the description, the
    engine equal to its engine, and the tags equal to the listed ones. *)
Theorem read_rebuilds_identity_and_tags {R} `{tables : CaseTables}
    (conn : Client R) (w : World R)
    (endpoint : Endpoint.t) (rest : list Endpoint.t) (r1 r3 : R)
    (tagList : gmap string string) :
  DescribeEndpoints conn (Id (data w)) (remote w) = (inr (endpoint :: rest), r1) →
  describable endpoint = true →
  ListTagsForResource conn (default "" (Endpoint.EndpointArn endpoint)) r1
  = (inr tagList, r3) →
  ∃ d',
    resourceAwsDmsEndpointRead conn w
    = Return None
        (mkWorld d' r3
           (calls w ++ [CallDescribeEndpoints (Id (data w));
                        CallListTagsForResource
                          (default "" (Endpoint.EndpointArn endpoint))]))
    ∧ Some (Id d') = Endpoint.EndpointIdentifier endpoint
    ∧ GetString d' "endpoint_id" = Id d'
    ∧ GetString d' "endpoint_arn" = default "" (Endpoint.EndpointArn endpoint)
    ∧ Some (GetString d' "engine_name") = Endpoint.EngineName endpoint
    ∧ GetMap d' "tags" = tagList.
Proof.
  intros Hdesc Hok Htags.
  destruct (SetState_returns endpoint
              (mkWorld (data w) r1 (calls w ++ [CallDescribeEndpoints (Id (data w))]))
              Hok) as [d2 Hset].
  pose proof Hset as Hw. apply SetState_writes in Hw as (_ & _ & _ & Hid & _ & Harn & _).
  pose proof Hset as Hi. apply SetState_identity in Hi as (Hident & Hengine & _).
  simpl in Hid, Harn, Hident, Hengine.
  exists (Set_ "tags" (VMap tagList) d2). split.
  { rewrite (Read_found conn w _ endpoint rest r1 Hdesc Hset). simpl.
    rewrite Harn, Htags. by rewrite <- app_assoc. }
  rewrite !GetString_Set_ne by done.
  repeat split; try done.
  unfold GetMap. by rewrite Get_Set_eq.
Qed.

Lemma read_rebuilds_identity_and_tags_witness :
  ∃ d',
    resourceAwsDmsEndpointRead SampleMysql.mysqlClient
      (Sample.world (mkResourceData "db1" ∅ ∅))
    = Return None
        (mkWorld d' []
           [CallDescribeEndpoints "db1";
            CallListTagsForResource "arn:aws:dms:endpoint:DB1"])
    ∧ Some (Id d') = Some "db1"
    ∧ GetString d' "endpoint_id" = Id d'
    ∧ GetString d' "endpoint_arn" = "arn:aws:dms:endpoint:DB1"
    ∧ Some (GetString d' "engine_name") = Some "mysql"
    ∧ GetMap d' "tags" = {["team" := "data"]}.
Proof.
  exact (read_rebuilds_identity_and_tags SampleMysql.mysqlClient
           (Sample.world (mkResourceData "db1" ∅ ∅)) SampleMysql.mysqlEndpoint [] [] []
           {["team" := "data"]} eq_refl eq_refl eq_refl).
Defined.

(** Two resource data with the same identity, stored state and current
    attributes are the same. *)
Lemma ResourceData_eq d1 d2 :
  Id d1 = Id d2 → state d1 = state d2 → (∀ key, view d1 !! key = view d2 !! key) →
  d1 = d2.
Proof.
  destruct d1, d2. simpl. intros -> -> Hview. f_equal. by apply map_eq.
Qed.

Lemma view_Set key v d key' :
  view (Set_ key v d) !! key' = if decide (key = key') then Some v else view d !! key'.
Proof. unfold Set_. simpl. apply lookup_insert. Qed.

Lemma view_SetId id d : view (SetId id d) = view d.
Proof. done. Qed.

(** X13.  Applying the same description a second time changes nothing: what
    SetState writes depends on the description alone. *)
Theorem setstate_is_idempotent {R} `{tables : CaseTables}
    (endpoint : Endpoint.t) (w w' : World R) a :
  resourceAwsDmsEndpointSetState endpoint w = Return a w' →
  resourceAwsDmsEndpointSetState endpoint w' = Return a w'.
Proof.
  unfold resourceAwsDmsEndpointSetState.
  destruct endpoint as [id ty engine arn cert db extra port server user kms ssl dyn s3].
  simpl. destruct id, ty, engine as [engine|]; run; try done.
  repeat case_bool_decide; subst; try done;
    try destruct dyn;
    try destruct s3 as [s3|]; run;
    try destruct (serialize s3) eqn:Hser; run;
    intros Hret; inversion Hret; subst; simpl;
    f_equal; f_equal; apply ResourceData_eq; try done;
    intros key; repeat first [rewrite view_Set | rewrite view_SetId];
    repeat case_decide; done.
Qed.

Lemma setstate_is_idempotent_witness :
  ∃ a w',
    resourceAwsDmsEndpointSetState SampleMysql.mysqlEndpoint
      (Sample.world SampleMysql.mysqlTags) = Return a w'
    ∧ resourceAwsDmsEndpointSetState SampleMysql.mysqlEndpoint w' = Return a w'.
Proof.
  eexists _, _. split; [vm_compute; reflexivity|].
  refine (setstate_is_idempotent SampleMysql.mysqlEndpoint
            (Sample.world SampleMysql.mysqlTags) _ _ _).
  vm_compute; reflexivity.
Defined.

(** ** More on the codec *)

Lemma canonical_render value :
  canonical value
  = render nameOf value [compressionType; csvDelimiter; csvRowDelimiter].
Proof. reflexivity. Qed.

Lemma nameOf_spelled `{tables : CaseTables} f : ToLower (nameOf f) = token f.
Proof. by destruct f. Qed.

Lemma nameOf_plain f :
  has_byte semicolon (nameOf f) = false ∧ has_byte equals (nameOf f) = false.
Proof. by destruct f. Qed.

(** X14.  The string Read writes parses back to the three values it was
    written from, on top of any settings object: so the s3 branch of
    Update, run on the string a Read has left, sends all three fields.
    (A value is read back up to its first [=]; it must hold no [;].) *)
Theorem parse_recovers_what_read_wrote `{tables : CaseTables}
    (s : S3Settings.t) (value : Field → string) :
  (∀ f, has_byte semicolon (value f) = false) →
  ∃ s',
    parseExtraAttributes s (canonical value) = Some s'
    ∧ (∀ f, getField f s' = Some (before equals (value f)))
    ∧ base s' = base s
    ∧ ((∀ f, has_byte equals (value f) = false) →
       serialize s' = Some (canonical value)).
Proof.
  intros Hfree. rewrite canonical_render.
  rewrite (parse_render nameOf value nameOf_spelled nameOf_plain)
    by (intros f _; apply Hfree).
  eexists. split; [reflexivity|].
  assert (∀ f, getField f
                 (foldl (λ s0 f0, setField f0 (before equals (value f0)) s0) s
                        [compressionType; csvDelimiter; csvRowDelimiter])
               = Some (before equals (value f))) as Hfields by (by intros []).
  split; [done|]. split; [by destruct s|].
  intros Hequals. rewrite <- canonical_render.
  apply serialize_canonical. intros f.
  by rewrite Hfields, before_absent by apply Hequals.
Qed.

Lemma parse_recovers_what_read_wrote_witness :
  ∃ s',
    parseExtraAttributes
      (S3Settings.mk (Some "role-a") (Some "bucket") (Some "other") None None None)
      "compressionType=NONE;csvDelimiter=|;csvRowDelimiter=unused" = Some s'
    ∧ (∀ f, getField f s' = Some (before equals (Sample.valueGiven f)))
    ∧ base s' = (Some "role-a", Some "bucket", Some "other")
    ∧ ((∀ f, has_byte equals (Sample.valueGiven f) = false) →
       serialize s' = Some "compressionType=NONE;csvDelimiter=|;csvRowDelimiter=unused").
Proof.
  refine (parse_recovers_what_read_wrote
            (S3Settings.mk (Some "role-a") (Some "bucket") (Some "other")
                           None None None)
            Sample.valueGiven _).
  intros f. by destruct f.
Defined.

Lemma lastBound_from `{tables : CaseTables} found f elems :
  foldl (λ found elem,
           if bool_decide (boundField elem = Some f)
           then Some (Micro.valueOf elem) else found)
        found elems
  = from_option Some found (lastBound f elems).
Proof.
  unfold lastBound. revert found.
  induction elems as [|elem elems IH]; intros found; simpl; [done|].
  rewrite IH, (IH (if bool_decide _ then _ else None)).
  destruct (foldl _ None elems); simpl; [done|]. by case_bool_decide.
Qed.

Lemma parseElems_lastBound `{tables : CaseTables} s s' elems f :
  parseElems s elems = Some s' →
  getField f s' = from_option Some (getField f s) (lastBound f elems).
Proof.
  revert s. induction elems as [|elem elems IH]; intros s Hs; simpl in Hs.
  - by inversion Hs.
  - destruct (parseElem s elem) as [s1|] eqn:Helem; simpl in Hs; [|done].
    rewrite (IH s1 Hs). unfold lastBound at 2. simpl.
    rewrite lastBound_from.
    destruct (lastBound f elems) as [x|]; simpl; [done|].
    rewrite parseElem_unfold in Helem. unfold Micro.valueOf.
    destruct (boundField elem) as [g|] eqn:Hg.
    + destruct (after equals elem) as [rest|]; simpl in Helem; [|done].
      inversion Helem. rewrite getField_setField. simpl.
      repeat case_bool_decide; simplify_eq; done.
    + inversion Helem. by rewrite bool_decide_eq_false_2.
Qed.

(** X15.  Each field ends the parse with the value of the last segment that
    binds it, and with the value it had when no segment does: a later
    segment overrides an earlier one of the same field. *)
Theorem parse_keeps_the_last_binding `{tables : CaseTables}
    (s s' : S3Settings.t) (v : string) (f : Field) :
  parseExtraAttributes s v = Some s' →
  getField f s' = from_option Some (getField f s) (lastBound f (Split v semicolon))
  ∧ base s' = base s.
Proof.
  rewrite parseExtraAttributes_loop. intros Hparse. split.
  - by apply parseElems_lastBound.
  - by eapply parseElems_base.
Qed.

Lemma parse_keeps_the_last_binding_witness :
  getField compressionType
    (S3Settings.mk (Some "role-a") (Some "bucket") (Some "folder")
                   (Some "GZIP") (Some "|") (Some (String backslash "n")))
  = Some "GZIP"
  ∧ base (S3Settings.mk (Some "role-a") (Some "bucket") (Some "folder")
                        (Some "GZIP") (Some "|") (Some (String backslash "n")))
    = base Sample.s3Described.
Proof.
  exact (parse_keeps_the_last_binding Sample.s3Described _
           "compressionType=NONE;csvDelimiter=|;CompressionType=GZIP"
           compressionType eq_refl).
Defined.

(** ** Delete *)

(** Delete makes its one call for the stored reference and returns the
    answer as it is: it does not retry an access-denied fault as Create
    does, it does not take a not-found fault for absence as Read does,
    and it leaves the resource data, identity included, as they are. *)
Lemma Delete_run {R} (conn : Client R) (w : World R) :
  let arn := GetString (data w) "endpoint_arn" in
  resourceAwsDmsEndpointDelete conn w
  = Return (DeleteEndpoint conn arn (remote w)).1
           (mkWorld (data w) (DeleteEndpoint conn arn (remote w)).2
                    (calls w ++ [CallDeleteEndpoint arn])).
Proof.
  unfold resourceAwsDmsEndpointDelete. run.
  by destruct (DeleteEndpoint conn _ _) as [[e|] r1].
Qed.

(** ** Create, then Read *)

Section RoundTrip.
Context {R : Type} `{tables : CaseTables} (conn : Client R).

Lemma whenSet_default d key :
  typeOf key = TypeString → default "" (whenSet d key) = GetString d key.
Proof.
  intros Hty. unfold whenSet.
  by destruct (GetOk_string d key Hty) as [-> | [-> ->]].
Qed.

(** The connection fields of the request of a relational engine. *)
Lemma createRequest_relational d request :
  GetString d "engine_name" ≠ "dynamodb" →
  GetString d "engine_name" ≠ "s3" →
  createRequest d = Some request →
  CreateEndpointInput.EndpointIdentifier request = Some (GetString d "endpoint_id")
  ∧ CreateEndpointInput.EndpointType request = Some (GetString d "endpoint_type")
  ∧ CreateEndpointInput.EngineName request = Some (GetString d "engine_name")
  ∧ CreateEndpointInput.ServerName request = Some (GetString d "server_name")
  ∧ CreateEndpointInput.Port request = Some (GetInt d "port")
  ∧ CreateEndpointInput.Username request = Some (GetString d "username")
  ∧ CreateEndpointInput.DatabaseName request = whenSet d "database_name"
  ∧ CreateEndpointInput.ExtraConnectionAttributes request
    = whenSet d "extra_connection_attributes"
  ∧ CreateEndpointInput.KmsKeyId request = whenSet d "kms_key_arn"
  ∧ CreateEndpointInput.SslMode request = whenSet d "ssl_mode".
Proof.
  intros Hdyn Hs3. unfold createRequest, whenSet, GetOk.
  rewrite (bool_decide_eq_false_2 _ Hdyn), (bool_decide_eq_false_2 _ Hs3). simpl.
  destruct (bool_decide (Get d "database_name" ≠ _)),
    (bool_decide (Get d "extra_connection_attributes" ≠ _)),
    (bool_decide (Get d "kms_key_arn" ≠ _)),
    (bool_decide (Get d "ssl_mode" ≠ _)),
    (bool_decide (Get d "certificate_arn" ≠ _));
    intros Hrequest; inversion Hrequest; simpl; repeat split; done.
Qed.

(** What SetState writes for a relational engine. *)
Lemma SetState_relational (endpoint : Endpoint.t) (w w' : World R) a engine :
  resourceAwsDmsEndpointSetState endpoint w = Return a w' →
  Endpoint.EngineName endpoint = Some engine →
  engine ≠ "dynamodb" → engine ≠ "s3" →
  Some (GetString (data w') "endpoint_id") = Endpoint.EndpointIdentifier endpoint
  ∧ Some (GetString (data w') "endpoint_type")
    = ToLower <$> Endpoint.EndpointType endpoint
  ∧ GetString (data w') "engine_name" = engine
  ∧ GetString (data w') "server_name" = default "" (Endpoint.ServerName endpoint)
  ∧ GetInt (data w') "port" = default 0 (Endpoint.Port endpoint)
  ∧ GetString (data w') "username" = default "" (Endpoint.Username endpoint)
  ∧ GetString (data w') "database_name" = default "" (Endpoint.DatabaseName endpoint)
  ∧ GetString (data w') "extra_connection_attributes"
    = default "" (Endpoint.ExtraConnectionAttributes endpoint)
  ∧ GetString (data w') "kms_key_arn" = default "" (Endpoint.KmsKeyId endpoint)
  ∧ GetString (data w') "ssl_mode" = default "" (Endpoint.SslMode endpoint).
Proof.
  unfold resourceAwsDmsEndpointSetState.
  destruct endpoint as [id ty engine' arn cert db extra port server user kms ssl dyn s3].
  simpl. destruct id, ty, engine' as [engine'|]; run; try done.
  intros Hret Heq Hdyn Hs3. inversion Heq; subst engine'. revert Hret.
  rewrite (bool_decide_eq_false_2 _ Hdyn), (bool_decide_eq_false_2 _ Hs3). run.
  intros Hret; inversion Hret; subst; simpl; unfold ptrString, ptrInt, GetInt;
    repeat split;
    repeat first [ rewrite GetString_Set_eq
                 | rewrite GetString_Set_ne by done
                 | rewrite Get_Set_eq
                 | rewrite Get_Set_ne by done ];
    done.
Qed.

End RoundTrip.

(** X16.  Create, then Read, for a relational engine: when the control plane
    describes the endpoint with what the create request asked for, Read
    leaves every attribute of the relational variant as it was
    configured, the password included (it is not written at all).  So
    the Update that follows sees no change in them. *)
Theorem read_after_create_keeps_the_configuration {R} `{tables : CaseTables}
    (conn : Client R)
    (w w' : World R) a (request : CreateEndpointInput.t)
    (endpoint : Endpoint.t) (rest : list Endpoint.t) (r1 : R) :
  GetString (data w) "engine_name" ≠ "dynamodb" →
  GetString (data w) "engine_name" ≠ "s3" →
  createRequest (data w) = Some request →
  DescribeEndpoints conn (Id (data w)) (remote w) = (inr (endpoint :: rest), r1) →
  echoes request endpoint →
  resourceAwsDmsEndpointRead conn w = Return a w' →
  (∀ key, key ∈ relationalStrings →
          GetString (data w') key = GetString (data w) key)
  ∧ GetInt (data w') "port" = GetInt (data w) "port".
Proof.
  intros Hdyn Hs3 Hrequest Hdesc Hecho Hret.
  destruct (createRequest_relational (data w) request Hdyn Hs3 Hrequest)
    as (Qid & Qty & Qengine & Qserver & Qport & Quser & Qdb & Qextra & Qkms & Qssl).
  destruct Hecho
    as (Eid & Ety & Eengine & Eserver & Eport & Euser & Edb & Eextra & Ekms & Essl).
  destruct (Read_described conn w w' a endpoint rest r1 Hdesc Hret)
    as (w2 & Hset & _ & _ & Hdata).
  rewrite Qengine in Eengine.
  destruct (SetState_relational endpoint _ w2 None _ Hset Eengine Hdyn Hs3)
    as (Sid & Sty & Sengine & Sserver & Sport & Suser & Sdb & Sextra & Skms & Sssl).
  destruct (SetState_frame endpoint _ w2 None _ Hset Eengine) as [_ Hframe].
  simpl in Hframe.
  assert (GetString (data w2) "password" = GetString (data w) "password") as Spw.
  { unfold GetString. rewrite Hframe; [done|]. unfold writtenKeys.
    rewrite (bool_decide_eq_false_2 _ Hdyn), (bool_decide_eq_false_2 _ Hs3).
    intros Hin. simpl in Hin.
    repeat (apply elem_of_cons in Hin as [Hin | Hin]; [done|]).
    by apply elem_of_nil in Hin. }
  assert (∀ key, key ≠ "tags" →
                 GetString (data w') key = GetString (data w2) key
                 ∧ GetInt (data w') key = GetInt (data w2) key) as Hsame.
  { intros key Hkey.
    destruct (ListTagsForResource conn _ r1).1; destruct Hdata as [_ ->]; [done|].
    unfold GetInt. by rewrite GetString_Set_ne, Get_Set_ne. }
  rewrite Eid, Qid in Sid. rewrite Ety, Qty in Sty.
  rewrite Eserver, Qserver in Sserver. rewrite Eport, Qport in Sport.
  rewrite Euser, Quser in Suser.
  rewrite Edb, Qdb, whenSet_default in Sdb by done.
  rewrite Eextra, Qextra, whenSet_default in Sextra by done.
  rewrite Ekms, Qkms, whenSet_default in Skms by done.
  rewrite Essl, Qssl, whenSet_default in Sssl by done.
  simpl in *. split.
  - intros key Hin. unfold relationalStrings in Hin.
    repeat (apply elem_of_cons in Hin as [-> | Hin];
            [match goal with
             | |- GetString _ ?k = _ =>
                 assert (k ≠ "tags") as Hk by done;
                 rewrite (proj1 (Hsame k Hk)); congruence
             end|]).
    by apply elem_of_nil in Hin.
  - assert ("port" ≠ "tags") as Hk by done.
    rewrite (proj2 (Hsame "port" Hk)). done.
Qed.

Lemma read_after_create_keeps_the_configuration_witness :
  ∃ a w',
    resourceAwsDmsEndpointRead SampleMysql.mysqlClient
      (Sample.world SampleMysql.mysqlPortAndTags) = Return a w'
    ∧ (∀ key, key ∈ relationalStrings →
              GetString (data w') key = GetString SampleMysql.mysqlPortAndTags key)
    ∧ GetInt (data w') "port" = 3307.
Proof.
  eexists _, _. split; [vm_compute; reflexivity|].
  refine (read_after_create_keeps_the_configuration SampleMysql.mysqlClient
            (Sample.world SampleMysql.mysqlPortAndTags) _ _
            (CreateEndpointInput.mk (Some "db1") (Some "source") (Some "mysql")
               {["team" := "data"]} None None (Some "secret") (Some 3307)
               (Some "db.example.com") (Some "admin") (Some "shop") None None
               (Some "none") None)
            SampleMysql.mysqlEndpoint [] [] _ _ _ eq_refl _ _).
  - by vm_compute.
  - by vm_compute.
  - by vm_compute.
  - repeat split.
  - vm_compute; reflexivity.
Defined.
